(** * cronolize: a shallow embedding of [cmd/cronolize/cronolize.go]

    The program is one [main] function that talks to the operating system:
    it reads and edits the process environment, resolves and opens a log
    file, registers a job with the cron library, and then either blocks
    forever or starts a detached copy of itself.  The embedding threads the
    mutable process state ([os.Stdout], [os.Stderr], the logger output and
    the environment) through a small monad that also records every call to
    the outside world in a trace and can stop the process ([os.Exit]). *)

From stdpp Require Import gmap strings list pretty.
From Stdlib Require Import ZArith Ascii.

Open Scope Z_scope.
Open Scope string_scope.

(** ** Values of the Go runtime the program handles *)

(** An [error] value: its message ([err.Error()]) and whether
    [errors.Is(err, fs.ErrNotExist)] holds for it. *)
Record error := mkError { Error : string; isErrNotExist : bool }.

(** [*os.File]: the three descriptors the process starts with, or a file
    returned by [os.OpenFile name flag perm]. *)
Inductive File :=
| Stdin
| Stdout
| Stderr
| Opened (name : string) (flag perm : Z).

(** [exec.Cmd].  A stream field is [None] for Go's [nil]: package [os/exec]
    then connects the child to the null device instead of a descriptor of
    the calling process. *)
Record Cmd := mkCmd {
  Path : string;
  CmdArgs : list string;
  CmdStdin : option File;
  CmdStdout : option File;
  CmdStderr : option File
}.

(** [exec.Command(name, arg...)]: the argument vector starts with [name];
    the three streams are [nil] until assigned. *)
Definition Command (name : string) (arg : list string) : Cmd :=
  mkCmd name (name :: arg) None None None.

Definition setStdin (c : Cmd) (f : option File) : Cmd :=
  mkCmd (Path c) (CmdArgs c) f (CmdStdout c) (CmdStderr c).
Definition setStdout (c : Cmd) (f : option File) : Cmd :=
  mkCmd (Path c) (CmdArgs c) (CmdStdin c) f (CmdStderr c).
Definition setStderr (c : Cmd) (f : option File) : Cmd :=
  mkCmd (Path c) (CmdArgs c) (CmdStdin c) (CmdStdout c) f.

(** Operands of the [fmt] functions ([...any]). *)
Inductive any :=
| Str (s : string)
| Int (n : Z)
| Err (e : error).

Definition show (a : any) : string :=
  match a with
  | Str s => s
  | Int n => pretty n
  | Err e => Error e
  end.

(** [fmt.Sprintf] for the two verbs the program uses, [%s] and [%d]. *)
Fixpoint Sprintf (format : string) (a : list any) : string :=
  match format with
  | EmptyString => EmptyString
  | String c EmptyString => String c EmptyString
  | String c (String d rest as tl) =>
      if Ascii.eqb c "%"%char && (Ascii.eqb d "s"%char || Ascii.eqb d "d"%char) then
        match a with
        | x :: a' => show x +:+ Sprintf rest a'
        | [] => "%!" +:+ String d "(MISSING)" +:+ Sprintf rest []
        end
      else String c (Sprintf tl a)
  end.

(** The text [fmt.Fprintln] writes before its final newline: the operands
    separated by single spaces. *)
Fixpoint Sprintln (a : list any) : string :=
  match a with
  | [] => EmptyString
  | [x] => show x
  | x :: a' => show x +:+ " " +:+ Sprintln a'
  end.

(** [strings.Join]. *)
Fixpoint Join (elems : list string) (sep : string) : string :=
  match elems with
  | [] => EmptyString
  | [x] => x
  | x :: tl => x +:+ sep +:+ Join tl sep
  end.

(** ** The trace of calls to the outside world *)

Inductive Event :=
| LookupEnv (key : string)
| Unsetenv (key : string)
| Setenv (key value : string)
| Println (f : File) (line : string)      (* fmt.Println / fmt.Fprintln *)
| LogPrintf (f : File) (line : string)    (* log.Printf on the logger output *)
| FlagUsage (f : File)                    (* flag.Usage() *)
| EvalSymlinks (path : string)
| OpenFile (name : string) (flag perm : Z)
| Close (f : File)
| AddFunc (spec : string)                 (* cron: parse and register *)
| CronStart                               (* c.Start() *)
| Run (c : Cmd) (env : gmap string string)    (* cmd.Run(): start and wait *)
| Start (c : Cmd) (env : gmap string string). (* cmd.Start(): start only *)

(** ** The process state and the monad *)

Record Proc := mkProc {
  environ : gmap string string;   (* the process environment *)
  os_Stdout : File;               (* the variable os.Stdout *)
  os_Stderr : File;               (* the variable os.Stderr *)
  log_Output : File;              (* the standard logger's writer *)
  trace : list Event
}.

(** How a piece of the program ends: it falls through with a value, it
    calls [os.Exit], or it never returns ([for { time.Sleep(...) }]). *)
Inductive Res (A : Type) :=
| Continue (a : A)
| Exit (code : Z)
| Forever.
Arguments Continue {A} a.
Arguments Exit {A} code.
Arguments Forever {A}.

Definition Go (A : Type) : Type := Proc -> Res A * Proc.

#[global] Instance Go_ret : MRet Go := fun A a p => (Continue a, p).

#[global] Instance Go_bind : MBind Go := fun A B k m p =>
  match m p with
  | (Continue a, p') => k a p'
  | (Exit code, p') => (Exit code, p')
  | (Forever, p') => (Forever, p')
  end.

Definition get : Go Proc := fun p => (Continue p, p).

Definition emit (e : Event) : Go unit :=
  fun p => (Continue tt,
            mkProc (environ p) (os_Stdout p) (os_Stderr p) (log_Output p)
                   (trace p ++ [e])).

Definition setEnviron (env : gmap string string) : Go unit :=
  fun p => (Continue tt,
            mkProc env (os_Stdout p) (os_Stderr p) (log_Output p) (trace p)).

Definition redirect (out err lg : File) : Go unit :=
  fun p => (Continue tt, mkProc (environ p) out err lg (trace p)).

Definition os_Exit {A} (code : Z) : Go A := fun p => (Exit code, p).

Definition sleepForever {A} : Go A := fun p => (Forever, p).

Definition when (b : bool) (m : Go unit) : Go unit :=
  if b then m else mret tt.

(** ** Constants of the program *)

Definition cronolizerEnvVar : string := "__CRONOLIZER__".
Definition envVarValueExpected : string := "INSTANTIATED".
Definition logFlag : string := "log".
Definition foregroundFlag : string := "fg".
Definition os_DevNull : string := "/dev/null".

(** [os.O_WRONLY], [os.O_CREATE], [os.O_APPEND] and [os.O_TRUNC] with their
    Linux values; the file mode [0666] is octal. *)
Definition O_WRONLY : Z := 1.
Definition O_CREATE : Z := 64.
Definition O_APPEND : Z := 1024.
Definition O_TRUNC : Z := 512.
Definition perm0666 : Z := 438.

(** The double quote character, for the help text. *)
Definition dq : string := String (ascii_of_nat 34) EmptyString.

Definition helpMsg : string :=
"
cronSpec is a five field CRON expression. See below or refer to
https://pkg.go.dev/github.com/robfig/cron/v3 for details.

command is the command string to execute via /bin/sh -c (by default). See -h
for more information.

Examples:
cronolize -log /var/log/minute.log " +:+ dq +:+
"* * * * *" +:+ dq +:+
" 'date ; echo Hello world'
cronolize -shell /bin/bash " +:+ dq +:+
"@hourly" +:+ dq +:+
" 'echo " +:+ dq +:+
"Last run on $(date)" +:+ dq +:+
" > /var/opt/output'
cronolize -log out.log " +:+ dq +:+
"CRON_TZ=Europe/Stockholm 37 13 * * *" +:+ dq +:+
" 'touch /var/opt/touchable ; echo " +:+ dq +:+
"Touched file at $(date)" +:+ dq +:+
"'
cronolize -log /var/logs/nightlyRestart.log " +:+ dq +:+
"@daily" +:+ dq +:+
" " +:+ dq +:+
"echo \" +:+ dq +:+
"Restarting myservice\" +:+ dq +:+
" ; supervisorctl restart myservice" +:+ dq +:+
"

Cron format:

Field name   | Mandatory? | Allowed values  | Allowed special characters
----------   | ---------- | --------------  | --------------------------
Minutes      | Yes        | 0-59            | * / , -
Hours        | Yes        | 0-23            | * / , -
Day of month | Yes        | 1-31            | * / , - ?
Month        | Yes        | 1-12 or JAN-DEC | * / , -
Day of week  | Yes        | 0-6 or SUN-SAT  | * / , - ?

Predefined schedules:

Entry                  | Description                                | Equivalent To
-----                  | -----------                                | -------------
@yearly (or @annually) | Run once a year, midnight, Jan. 1st        | 0 0 1 1 *
@monthly               | Run once a month, midnight, first of month | 0 0 1 * *
@weekly                | Run once a week, midnight between Sat/Sun  | 0 0 * * 0
@daily (or @midnight)  | Run once a day, midnight                   | 0 0 * * *
@hourly                | Run once an hour, beginning of hour        | 0 * * * *

The parent process will start a copy of itself in the background and exit while
the copy (child process) will run cron and block indefinitely until killed
(unless the -fg option is issued).
".

(** ** The inputs of one process *)

(** What [flag.Parse()] leaves behind: for each option its value when it
    was given on the command line ([None] otherwise, so that the default
    applies and [flag.CommandLine.Visit] skips it) and the positional
    arguments [flag.Args()]. *)
Record CommandLine := mkCommandLine {
  flag_log : option string;
  flag_shell : option string;
  flag_shellCommandOption : option string;
  flag_truncate : option bool;
  flag_q : option bool;
  flag_fg : option bool;
  flag_Args : list string
}.

(** Everything outside the program that [main] consults.  The library and
    system calls answer through these fields; the program decides what to do
    with the answers. *)
Record OS := mkOS {
  version : string;                       (* set by the linker, "0" otherwise *)
  os_Args0 : string;                      (* os.Args[0] *)
  os_Args1 : list string;                 (* os.Args[1:] *)
  flags : CommandLine;                    (* flag.Parse() on os.Args[1:] *)
  filepath_Clean : string -> string;
  filepath_EvalSymlinks : string -> error + string;
  os_OpenFile : string -> Z -> Z -> option error;
  cron_AddFunc : string -> option error;  (* the parser's verdict *)
  os_Setenv : string -> string -> option error;
  cmd_Start : Cmd -> error + Z            (* the child's PID *)
}.

Definition isSet {A} (o : option A) : bool :=
  match o with Some _ => true | None => false end.

(** ** Helpers of the program: [fatal], [fatalf], [p], [pe] *)

Definition Fprintln_Stderr (a : list any) : Go unit :=
  s ← get; emit (Println (os_Stderr s) (Sprintln a)).

Definition Println_Stdout (a : list any) : Go unit :=
  s ← get; emit (Println (os_Stdout s) (Sprintln a)).

Definition fatal {A} (a : list any) : Go A :=
  let prepend := "Error:" in
  let a := Str prepend :: a in
  Fprintln_Stderr a;;
  os_Exit 1.

Definition fatalf {A} (format : string) (a : list any) : Go A :=
  if (length a <? 1)%nat then
    fatal [Str format]
  else
    Fprintln_Stderr [Str (Sprintf format a)];;
    os_Exit 1.

Definition p (format : string) (a : list any) : Go unit :=
  if (length a <? 1)%nat then
    Println_Stdout [Str format]
  else
    Println_Stdout [Str (Sprintf format a)].

Definition pe (format : string) (a : list any) : Go unit :=
  if (length a <? 1)%nat then
    Fprintln_Stderr [Str format]
  else
    Fprintln_Stderr [Str (Sprintf format a)].

Definition log_Printf (format : string) (a : list any) : Go unit :=
  s ← get; emit (LogPrintf (log_Output s) (Sprintf format a)).

(** ** The job registered with cron (the closure given to [c.AddFunc])

    [command] is [flag.Args()[1]]; [result] is what [cmd.Run()] answers at
    this firing: [None] when the command ran and exited with status zero, an
    error when it could not be started or exited with another status. *)
Definition job (w : OS) (command : string) (result : option error) : Go unit :=
  let shell := default "/bin/sh" (flag_shell (flags w)) in
  let shellCommandOption := default "-c" (flag_shellCommandOption (flags w)) in
  let quiet := default false (flag_q (flags w)) in
  let foreground := default false (flag_fg (flags w)) in
  cmd ← (if negb (String.length shellCommandOption =? 0)%nat then
           when (negb quiet)
             (log_Printf "Running: %s"
                [Str (Join [shell; shellCommandOption; command] " ")]);;
           mret (Command shell [shellCommandOption; command])
         else
           when (negb quiet)
             (log_Printf "Running: %s" [Str (Join [shell; command] " ")]);;
           mret (Command shell [command]));
  let cmd := if negb foreground
             then setStdin cmd (Some Stdin)
             else setStdin cmd None in
  s ← get;
  let cmd := setStdout cmd (Some (os_Stdout s)) in
  let cmd := setStderr cmd (Some (os_Stderr s)) in
  emit (Run cmd (environ s));;
  match result with
  | Some err => fatal [Err err]
  | None => mret tt
  end.

(** ** [main] *)

Definition main (w : OS) : Go unit :=
  s0 ← get;
  emit (LookupEnv cronolizerEnvVar);;
  let hasEnvVar := isSet (environ s0 !! cronolizerEnvVar) in
  let stage := default EmptyString (environ s0 !! cronolizerEnvVar) in
  let isCronProcess := hasEnvVar && String.eqb stage envVarValueExpected in
  when hasEnvVar
    (emit (Unsetenv cronolizerEnvVar);;
     setEnviron (delete cronolizerEnvVar (environ s0)));;
  let logfile := default os_DevNull (flag_log (flags w)) in
  let truncateLog := default false (flag_truncate (flags w)) in
  let quiet := default false (flag_q (flags w)) in
  let foreground := default false (flag_fg (flags w)) in
  match flag_Args (flags w) with
  | [cronSpec; command] =>
      let hasLogFlag := isSet (flag_log (flags w)) in
      let hasForegroundFlag := isSet (flag_fg (flags w)) in
      when (hasLogFlag && hasForegroundFlag)
        (fatalf "Syntax error: you can not combine the -%s and the -%s option."
           [Str logFlag; Str foregroundFlag]);;
      when (negb foreground)
        (let cleanedPath := filepath_Clean w logfile in
         emit (EvalSymlinks cleanedPath);;
         evaluatedPath ←
           match filepath_EvalSymlinks w cleanedPath with
           | inl err =>
               if negb (isErrNotExist err) then fatal [Err err]
               else mret cleanedPath
           | inr evaluated => mret evaluated
           end;
         let flag := if truncateLog
                     then Z.lor (Z.lor (Z.lor O_WRONLY O_CREATE) O_APPEND) O_TRUNC
                     else Z.lor (Z.lor O_WRONLY O_CREATE) O_APPEND in
         emit (OpenFile evaluatedPath flag perm0666);;
         match os_OpenFile w evaluatedPath flag perm0666 with
         | Some err => fatal [Err err]
         | None => mret tt
         end;;
         let logfileFD := Opened evaluatedPath flag perm0666 in
         if isCronProcess then redirect logfileFD logfileFD logfileFD
         else emit (Close logfileFD));;
      emit (AddFunc cronSpec);;
      match cron_AddFunc w cronSpec with
      | Some err => fatal [Err err]
      | None => mret tt
      end;;
      if isCronProcess || foreground then
        (* Start cron and wait forever. *)
        emit CronStart;;
        sleepForever
      else
        emit (Setenv cronolizerEnvVar envVarValueExpected);;
        match os_Setenv w cronolizerEnvVar envVarValueExpected with
        | Some err => fatal [Err err]
        | None =>
            s ← get;
            setEnviron (<[cronolizerEnvVar := envVarValueExpected]> (environ s))
        end;;
        let cmd := Command (os_Args0 w) (os_Args1 w) in
        let cmd := setStdin cmd None in
        let cmd := setStdout cmd None in
        let cmd := setStderr cmd None in
        s ← get;
        emit (Start cmd (environ s));;
        match cmd_Start w cmd with
        | inl err => fatal [Err err]
        | inr pid =>
            when (negb quiet) (p "Running cron job as PID %d" [Int pid])
        end
  | _ =>
      pe "Welcome to cronolize %s (C) 2022 SA6MWA https://github.com/sa6mwa/cronolizer"
         [Str (version w)];;
      pe EmptyString [];;
      pe "Syntax: %s [options] cronSpec command" [Str (os_Args0 w)];;
      pe EmptyString [];;
      s ← get;
      emit (FlagUsage (os_Stderr s));;
      pe helpMsg [];;
      os_Exit 1
  end.

(** ** Running a process *)

(** A fresh process: the three standard descriptors in place, the logger
    writing to standard error, nothing done yet. *)
Definition boot (env : gmap string string) : Proc :=
  mkProc env Stdout Stderr Stderr [].

(** How the process ends: [Exited code], or [Blocking] when it waits
    forever with cron started. *)
Inductive Outcome := Exited (code : Z) | Blocking.

Definition outcome (r : Res unit) : Outcome :=
  match r with
  | Continue _ => Exited 0      (* main returned *)
  | Exit code => Exited code
  | Forever => Blocking
  end.

Definition run_main (w : OS) (env : gmap string string) : Outcome * Proc :=
  let (r, s) := main w (boot env) in (outcome r, s).

(** Firings handed to the job one after the other, each with the answer of
    its [cmd.Run()]: the schedule in which every job has returned before
    the next firing.  Cron starts each job on a goroutine of its own, so in
    the running program firings may also overlap; what is proved through
    [fire] is stated firing by firing and does not depend on their order. *)
Fixpoint fire (w : OS) (command : string) (results : list (option error))
  : Go unit :=
  match results with
  | [] => mret tt
  | r :: rest => job w command r;; fire w command rest
  end.

(** The whole life of a process: [main], and when that blocks with cron
    running, the firings that follow. *)
Definition cronolize (w : OS) (env : gmap string string)
    (results : list (option error)) : Outcome * Proc :=
  match main w (boot env), flag_Args (flags w) with
  | (Forever, s), [_; command] =>
      match fire w command results s with
      | (Continue _, s') => (Blocking, s')
      | (Exit code, s') => (Exited code, s')
      | (Forever, s') => (Blocking, s')
      end
  | (r, s), _ => (outcome r, s)
  end.

(** The process that [cmd.Start()] creates: the same program with the same
    arguments, started with the environment of the parent at that moment.
    Its own system calls may be answered differently. *)
Definition relaunched (parent child_os : OS) : OS :=
  mkOS (version parent) (os_Args0 parent) (os_Args1 parent) (flags parent)
       (filepath_Clean parent)
       (filepath_EvalSymlinks child_os) (os_OpenFile child_os)
       (cron_AddFunc parent)
       (os_Setenv child_os) (cmd_Start child_os).

(** ** Classes of events, as executable predicates on the trace *)

Definition isLookupEnv (e : Event) : bool :=
  match e with LookupEnv _ => true | _ => false end.
Definition isSetenv (e : Event) : bool :=
  match e with Setenv _ _ => true | _ => false end.
Definition isPrintln (e : Event) : bool :=
  match e with Println _ _ => true | _ => false end.
(** Path resolution and every operation on the log file. *)
Definition isFileIO (e : Event) : bool :=
  match e with
  | EvalSymlinks _ | OpenFile _ _ _ | Close _ => true
  | _ => false
  end.
(** Registering the job, starting cron, firing the command. *)
Definition isScheduling (e : Event) : bool :=
  match e with
  | AddFunc _ | CronStart | Run _ _ => true
  | _ => false
  end.
Definition isCronStart (e : Event) : bool :=
  match e with CronStart => true | _ => false end.
Definition isRun (e : Event) : bool :=
  match e with Run _ _ => true | _ => false end.
Definition isStart (e : Event) : bool :=
  match e with Start _ _ => true | _ => false end.
Definition isClose (e : Event) : bool :=
  match e with Close _ => true | _ => false end.

Definition count (f : Event -> bool) (t : list Event) : nat :=
  length (List.filter f t).

(** ** What one firing adds to the trace *)

Definition extend (s : Proc) (evs : list Event) : Proc :=
  mkProc (environ s) (os_Stdout s) (os_Stderr s) (log_Output s)
         (trace s ++ evs).

(** The command the job builds in state [s]. *)
Definition job_cmd (w : OS) (command : string) (s : Proc) : Cmd :=
  let shell := default "/bin/sh" (flag_shell (flags w)) in
  let shellCommandOption := default "-c" (flag_shellCommandOption (flags w)) in
  mkCmd shell
        (if (String.length shellCommandOption =? 0)%nat
         then [shell; command]
         else [shell; shellCommandOption; command])
        (if default false (flag_fg (flags w)) then None else Some Stdin)
        (Some (os_Stdout s)) (Some (os_Stderr s)).

Definition job_events (w : OS) (command : string) (result : option error)
    (s : Proc) : list Event :=
  (if default false (flag_q (flags w)) then []
   else [LogPrintf (log_Output s)
           (Sprintf "Running: %s"
              [Str (Join (CmdArgs (job_cmd w command s)) " ")])])
  ++ [Run (job_cmd w command s) (environ s)]
  ++ match result with
     | Some err => [Println (os_Stderr s) (Sprintln [Str "Error:"; Err err])]
     | None => []
     end.

Fixpoint fire_events (w : OS) (command : string)
    (results : list (option error)) (s : Proc) : list Event :=
  match results with
  | [] => []
  | None :: rest => job_events w command None s ++ fire_events w command rest s
  | Some err :: _ => job_events w command (Some err) s
  end.

Definition failed : option error -> bool := isSet.


(** * The recurrence engine

    Parsing a recurrence expression and finding the next fire time are done
    by the cron library that [main] reaches through [cron.New] and
    [AddFunc]; no source file of this repository contains them.  This
    module follows the specification instead: its data model (five fields
    that are sets of accepted values or wildcards, an optional zone) and
    its [next()] algorithm. *)
Module Recurrence.

(** An instant: seconds since 1970-01-01T00:00:00Z. *)
Definition Instant := Z.

(** A field: [None] for the wildcard, [Some values] when restricted. *)
Definition Field := option (list Z).

(** Modelled from the spec: the parsed recurrence expression, whose parser
    is in the cron library and not in this repository; five ordered fields
    and an optional zone override. *)
Record RecurrenceSpec := mkSpec {
  minute : Field;
  hour : Field;
  day_of_month : Field;
  month : Field;
  day_of_week : Field;
  zone : Z    (* seconds the zone's wall clock is ahead of UTC; 0 if none *)
}.

Definition in_range (lo hi : Z) (f : Field) : bool :=
  match f with
  | None => true
  | Some values =>
      negb (Nat.eqb (length values) 0) &&
      forallb (fun v => (lo <=? v)%Z && (v <=? hi)%Z) values
  end.

(** Modelled from the spec: the invariant of a parsed expression (the
    parser that establishes it is missing); every accepted value lies in
    the range of its field. *)
Definition valid (spec : RecurrenceSpec) : bool :=
  in_range 0 59 (minute spec) && in_range 0 23 (hour spec) &&
  in_range 1 31 (day_of_month spec) && in_range 1 12 (month spec) &&
  in_range 0 6 (day_of_week spec).

(** Wall-clock fields of a count of seconds (proleptic Gregorian
    calendar, days counted from 1970-01-01, a Thursday). *)
Definition minute_of (local : Z) : Z := (local mod 3600) / 60.
Definition hour_of (local : Z) : Z := (local mod 86400) / 3600.
Definition day_of_week_of (local : Z) : Z := (local / 86400 + 4) mod 7.

Definition day_of_era (local : Z) : Z := (local / 86400 + 719468) mod 146097.
Definition year_of_era (doe : Z) : Z :=
  (doe - doe / 1460 + doe / 36524 - doe / 146096) / 365.
Definition day_of_year (doe : Z) : Z :=
  let yoe := year_of_era doe in
  doe - (365 * yoe + yoe / 4 - yoe / 100).   (* counted from 1 March *)
Definition month_of (local : Z) : Z :=
  let mp := (5 * day_of_year (day_of_era local) + 2) / 153 in
  if (mp <? 10)%Z then mp + 3 else mp - 9.
Definition day_of_month_of (local : Z) : Z :=
  let doy := day_of_year (day_of_era local) in
  let mp := (5 * doy + 2) / 153 in
  doy - (153 * mp + 2) / 5 + 1.

Definition accepts (f : Field) (v : Z) : bool :=
  match f with
  | None => true
  | Some values => existsb (Z.eqb v) values
  end.

(** Day-of-month and day-of-week: either one suffices when both are
    restricted. *)
Definition day_matches (spec : RecurrenceSpec) (local : Z) : bool :=
  match day_of_month spec, day_of_week spec with
  | Some _, Some _ =>
      if accepts (day_of_month spec) (day_of_month_of local) then true
      else accepts (day_of_week spec) (day_of_week_of local)
  | _, _ =>
      if accepts (day_of_month spec) (day_of_month_of local)
      then accepts (day_of_week spec) (day_of_week_of local)
      else false
  end.

(** Modelled from the spec: the field tests of the missing [next()]; the
    instant satisfies all fields of the expression, read off the wall clock
    of the zone. *)
Definition matches (spec : RecurrenceSpec) (t : Instant) : bool :=
  let local := t + zone spec in
  if accepts (minute spec) (minute_of local) then
    if accepts (hour spec) (hour_of local) then
      if accepts (month spec) (month_of local) then day_matches spec local
      else false
    else false
  else false.

(** Modelled from the spec: where the missing [next()] starts its scan;
    [after] truncated to the minute, plus a minute. *)
Definition first_candidate (after : Instant) : Instant :=
  60 * (after / 60) + 60.

(** Modelled from the spec: the bound of the missing [next()]; the search
    gives up after four years of minutes. *)
Definition horizon : nat := Z.to_nat (4 * 366 * 24 * 60).

(** Modelled from the spec: the forward scan of the missing [next()],
    minute by minute, returning the first candidate where all field tests
    pass. *)
Fixpoint scan (spec : RecurrenceSpec) (fuel : nat) (candidate : Instant)
  : option Instant :=
  match fuel with
  | O => None
  | S fuel' =>
      if matches spec candidate then Some candidate
      else scan spec fuel' (candidate + 60)
  end.

(** Modelled from the spec: [next()], which the cron library implements
    and this repository only calls; [None] is the internal error of an
    exhausted search. *)
Definition next (spec : RecurrenceSpec) (after : Instant) : option Instant :=
  scan spec horizon (first_candidate after).

(** [0 0 31 2 *]: midnight on the 31st of February. *)
Definition february_31 : RecurrenceSpec :=
  mkSpec (Some [0]) (Some [0]) (Some [31]) (Some [2]) None 0.

(** [* * * * *] *)
Definition every_minute : RecurrenceSpec :=
  mkSpec None None None None None 0.

(** [37 13 * * *] *)
Definition daily_1337 : RecurrenceSpec :=
  mkSpec (Some [37]) (Some [13]) None None None 0.

End Recurrence.

(** ** Vocabulary for stating the properties of [main] *)

(** The log path [main] works with, before and after resolution, and the
    flags it opens the file with. *)
Definition logfile_of (w : OS) : string :=
  default os_DevNull (flag_log (flags w)).

Definition cleaned (w : OS) : string := filepath_Clean w (logfile_of w).

(** Resolution goes through: [filepath.EvalSymlinks] answers with a path,
    or with an error that [errors.Is] recognises as [fs.ErrNotExist]. *)
Definition resolves (w : OS) : bool :=
  match filepath_EvalSymlinks w (cleaned w) with
  | inl err => isErrNotExist err
  | inr _ => true
  end.

Definition resolved (w : OS) : string :=
  match filepath_EvalSymlinks w (cleaned w) with
  | inl _ => cleaned w
  | inr evaluated => evaluated
  end.

Definition openFlag (w : OS) : Z :=
  if default false (flag_truncate (flags w))
  then Z.lor (Z.lor (Z.lor O_WRONLY O_CREATE) O_APPEND) O_TRUNC
  else Z.lor (Z.lor O_WRONLY O_CREATE) O_APPEND.

Definition logfileFD (w : OS) : File :=
  Opened (resolved w) (openFlag w) perm0666.

(** The process was started with the marker set to the expected value: it
    is the relaunched instance. *)
Definition isCronProcess (env : gmap string string) : bool :=
  match env !! cronolizerEnvVar with
  | Some stage => String.eqb stage envVarValueExpected
  | None => false
  end.

(** The conditions under which [main] gives up before it blocks or
    relaunches, in the order [main] meets them. *)
Inductive Fatal :=
| UsageCount                   (* not exactly two positional arguments *)
| UsageCombination             (* -log given together with -fg *)
| PathError (err : error)      (* resolution failed, file not merely absent *)
| OpenError (err : error)      (* the log file cannot be opened *)
| ParseError (err : error).    (* cron rejects the expression *)

Definition log_error (w : OS) : option Fatal :=
  match filepath_EvalSymlinks w (cleaned w) with
  | inl err =>
      if isErrNotExist err
      then OpenError <$> os_OpenFile w (resolved w) (openFlag w) perm0666
      else Some (PathError err)
  | inr _ => OpenError <$> os_OpenFile w (resolved w) (openFlag w) perm0666
  end.

Definition startup_error (w : OS) : option Fatal :=
  match flag_Args (flags w) with
  | [cronSpec; _] =>
      if isSet (flag_log (flags w)) && isSet (flag_fg (flags w))
      then Some UsageCombination
      else
        match (if default false (flag_fg (flags w)) then None
               else log_error w) with
        | Some f => Some f
        | None => ParseError <$> cron_AddFunc w cronSpec
        end
  | _ => Some UsageCount
  end.

(** Where [os.Stderr] points when the condition is met: the log file once
    the relaunched instance has redirected its streams, which is only the
    case for a parse error. *)
Definition error_stream (w : OS) (env : gmap string string) (f : Fatal)
  : File :=
  match f with
  | ParseError _ =>
      if isCronProcess env && negb (default false (flag_fg (flags w)))
      then logfileFD w else Stderr
  | _ => Stderr
  end.

(** What is written for each condition. *)
Definition diagnostic (w : OS) (f : Fatal) (stderr : File) : list Event :=
  match f with
  | UsageCount =>
      [Println stderr
         (Sprintf "Welcome to cronolize %s (C) 2022 SA6MWA https://github.com/sa6mwa/cronolizer"
            [Str (version w)]);
       Println stderr EmptyString;
       Println stderr
         (Sprintf "Syntax: %s [options] cronSpec command" [Str (os_Args0 w)]);
       Println stderr EmptyString;
       FlagUsage stderr;
       Println stderr helpMsg]
  | UsageCombination =>
      [Println stderr
         "Syntax error: you can not combine the -log and the -fg option."]
  | PathError err | OpenError err | ParseError err =>
      [Println stderr ("Error: " +:+ Error err)]
  end.

(** Everything the process wrote, wherever it went. *)
Definition isOutput (e : Event) : bool :=
  match e with
  | Println _ _ | LogPrintf _ _ | FlagUsage _ => true
  | _ => false
  end.

(** A trace whose whole output is one line on standard error that begins
    with the marker [Error:]. *)
Definition one_marked_line_on_stderr (t : list Event) : Prop :=
  ∃ msg, List.filter isOutput t = [Println Stderr ("Error:" +:+ msg)].

(** Every command fired in the trace has its input disconnected. *)
Definition stdin_disconnected (t : list Event) : Prop :=
  ∀ cmd env, Run cmd env ∈ t → CmdStdin cmd = None.

(** What holds of the state in which [main] starts to block. *)
Definition blocking_state (w : OS) (env : gmap string string) (s : Proc)
  : Prop :=
  (∃ spec command, flag_Args (flags w) = [spec; command]) ∧
  (isCronProcess env || default false (flag_fg (flags w))) = true ∧
  environ s !! cronolizerEnvVar = None ∧
  count isRun (trace s) = 0%nat ∧
  count isSetenv (trace s) = 0%nat ∧
  count isStart (trace s) = 0%nat ∧
  count isPrintln (trace s) = 0%nat ∧
  count isLookupEnv (trace s) = 1%nat ∧
  head (trace s) = Some (LookupEnv cronolizerEnvVar) ∧
  (∀ v, env !! cronolizerEnvVar = Some v ->
        trace s !! 1%nat = Some (Unsetenv cronolizerEnvVar)) ∧
  os_Stderr s =
    (if isCronProcess env && negb (default false (flag_fg (flags w)))
     then logfileFD w else Stderr).

(** The events a firing of the job may add in state [s]. *)
Definition job_event (w : OS) (command : string) (s : Proc) (e : Event)
  : Prop :=
  match e with
  | LogPrintf _ _ | Println _ _ => True
  | Run cmd env => cmd = job_cmd w command s ∧ env = environ s
  | _ => False
  end.

(** How a trace treats the marker variable, for a process started with the
    environment [env]. *)
Definition marker_discipline (w : OS) (env : gmap string string)
    (t : list Event) : Prop :=
  (* read once, first thing *)
  head t = Some (LookupEnv cronolizerEnvVar) ∧
  count isLookupEnv t = 1%nat ∧
  (* cleared right after, whatever its value *)
  (∀ v, env !! cronolizerEnvVar = Some v ->
        t !! 1%nat = Some (Unsetenv cronolizerEnvVar)) ∧
  (* no fired command gets it *)
  (∀ i cmd e, t !! i = Some (Run cmd e) -> e !! cronolizerEnvVar = None) ∧
  (* set only in the relaunch branch, right before the child is started *)
  (∀ i k v, t !! i = Some (Setenv k v) ->
        k = cronolizerEnvVar ∧ v = envVarValueExpected ∧
        isCronProcess env = false ∧
        default false (flag_fg (flags w)) = false ∧
        (os_Setenv w k v = None ->
         ∃ cmd e, t !! S i = Some (Start cmd e))) ∧
  (∀ i cmd e, t !! i = Some (Start cmd e) ->
        e !! cronolizerEnvVar = Some envVarValueExpected ∧
        ∃ j, i = S j ∧
             t !! j = Some (Setenv cronolizerEnvVar envVarValueExpected)) ∧
  (* the relaunched instance does not relaunch *)
  (isCronProcess env = true -> count isStart t = 0%nat).

(** ** Sample inputs *)

Definition ErrNotExist : error :=
  mkError "lstat out.log: no such file or directory" true.
Definition ErrPermission : error :=
  mkError "open out.log: permission denied" false.
Definition ErrExit3 : error := mkError "exit status 3" false.
Definition ErrParse : error :=
  mkError "expected exactly 5 fields, found 2: [every minute]" false.

Definition friendly (args1 : list string) (cl : CommandLine) : OS :=
  mkOS "0" "./cronolize" args1 cl
       (fun path => path)
       (fun _ => inl ErrNotExist)
       (fun _ _ _ => None)
       (fun spec => if String.eqb spec "every minute" then Some ErrParse else None)
       (fun _ _ => None)
       (fun _ => inr 4242).

(** [cronolize -log out.log -truncate "* * * * *" "echo hi"] *)
Definition background_os : OS :=
  friendly ["-log"; "out.log"; "-truncate"; "* * * * *"; "echo hi"]
    (mkCommandLine (Some "out.log") None None (Some true) None None
       ["* * * * *"; "echo hi"]).

(** [cronolize -fg "* * * * *" "echo hi"] *)
Definition foreground_os : OS :=
  friendly ["-fg"; "* * * * *"; "echo hi"]
    (mkCommandLine None None None None None (Some true)
       ["* * * * *"; "echo hi"]).

(** [cronolize -fg -log out.log "* * * * *" "echo hi"] *)
Definition combined_os : OS :=
  friendly ["-fg"; "-log"; "out.log"; "* * * * *"; "echo hi"]
    (mkCommandLine (Some "out.log") None None None None (Some true)
       ["* * * * *"; "echo hi"]).

(** [cronolize "* * * * *"] *)
Definition short_os : OS :=
  friendly ["* * * * *"]
    (mkCommandLine None None None None None None ["* * * * *"]).

(** [cronolize -log out.log "every minute" "echo hi"] *)
Definition malformed_os : OS :=
  friendly ["-log"; "out.log"; "every minute"; "echo hi"]
    (mkCommandLine (Some "out.log") None None None None None
       ["every minute"; "echo hi"]).

(** The same command line where the log file cannot be opened. *)
Definition unwritable_os : OS :=
  mkOS "0" "./cronolize"
       ["-log"; "out.log"; "-truncate"; "* * * * *"; "echo hi"]
       (flags background_os)
       (fun path => path)
       (fun _ => inl ErrNotExist)
       (fun _ _ _ => Some ErrPermission)
       (fun _ => None)
       (fun _ _ => None)
       (fun _ => inr 4242).

Definition no_marker : gmap string string := ∅.
Definition with_marker : gmap string string :=
  {[ cronolizerEnvVar := envVarValueExpected ]}.

(** ** Vocabulary for further properties of [main] and of the job *)

Definition isUnsetenv (e : Event) : bool :=
  match e with Unsetenv _ => true | _ => false end.
Definition isLogPrintf (e : Event) : bool :=
  match e with LogPrintf _ _ => true | _ => false end.

(** Where a stream of the scheduler points once [main] blocks: the log file
    in the relaunched instance run without the foreground option, the
    descriptor the process started with otherwise. *)
Definition scheduler_stream (w : OS) (env : gmap string string) (std : File)
  : File :=
  if isCronProcess env && negb (default false (flag_fg (flags w)))
  then logfileFD w else std.

(** The process is to block: it is the relaunched instance or runs with the
    foreground option. *)
Definition blocks (w : OS) (env : gmap string string) : bool :=
  isCronProcess env || default false (flag_fg (flags w)).

(** The exit status of [main] read off the answers it gets. *)
Definition expected_outcome (w : OS) (env : gmap string string) : Outcome :=
  match startup_error w with
  | Some _ => Exited 1
  | None =>
      if blocks w env then Blocking
      else
        match os_Setenv w cronolizerEnvVar envVarValueExpected with
        | Some _ => Exited 1
        | None =>
            match cmd_Start w (mkCmd (os_Args0 w) (os_Args0 w :: os_Args1 w)
                                 None None None) with
            | inl _ => Exited 1
            | inr _ => Exited 0
            end
        end
  end.

(** What goes wrong when the first phase relaunches itself. *)
Definition relaunch_error (w : OS) : option error :=
  match os_Setenv w cronolizerEnvVar envVarValueExpected with
  | Some err => Some err
  | None =>
      match cmd_Start w (mkCmd (os_Args0 w) (os_Args0 w :: os_Args1 w)
                           None None None) with
      | inl err => Some err
      | inr _ => None
      end
  end.

Definition ErrFork : error :=
  mkError "fork/exec ./cronolize: resource temporarily unavailable" false.

(** The sample background command line on a system that cannot start
    another process. *)
Definition unspawnable_os : OS :=
  mkOS "0" "./cronolize"
       ["-log"; "out.log"; "-truncate"; "* * * * *"; "echo hi"]
       (flags background_os)
       (fun path => path)
       (fun _ => inl ErrNotExist)
       (fun _ _ _ => None)
       (fun _ => None)
       (fun _ _ => None)
       (fun _ => inl ErrFork).

(** A marker left over with another value. *)
Definition stale_marker : gmap string string :=
  {[ cronolizerEnvVar := "STALE"; "HOME" := "/root" ]}.

(** The file an output event writes to. *)
Definition output_target (e : Event) : option File :=
  match e with
  | Println f _ | LogPrintf f _ | FlagUsage f => Some f
  | _ => None
  end.

(** ** [main] with the exits of [flag.Parse()]

    What [flag.Parse()] (line 134) does with [os.Args[1:]]: it returns, and
    the options and positional arguments are those of [flags]; or it meets
    [-h] or [-help], prints the usage and exits with status 0; or it
    rejects an option or a value, prints its message and the usage and
    exits with status 2. *)
Inductive FlagParse :=
| Returned
| HelpRequested
| Rejected (msg : string).

(** Lines 117-125 of [main], which come before [flag.Parse()]. *)
Definition readMarker : Go unit :=
  s0 ← get;
  emit (LookupEnv cronolizerEnvVar);;
  let hasEnvVar := isSet (environ s0 !! cronolizerEnvVar) in
  when hasEnvVar
    (emit (Unsetenv cronolizerEnvVar);;
     setEnviron (delete cronolizerEnvVar (environ s0))).

(** The whole of [main]: when [flag.Parse()] returns it is [main] above;
    otherwise the process ends inside [flag.Parse()], after the marker has
    been read and cleared. *)
Definition program (w : OS) (parse : FlagParse) : Go unit :=
  match parse with
  | Returned => main w
  | HelpRequested =>
      readMarker;;
      s ← get;
      emit (FlagUsage (os_Stderr s));;
      os_Exit 0
  | Rejected msg =>
      readMarker;;
      Fprintln_Stderr [Str msg];;
      s ← get;
      emit (FlagUsage (os_Stderr s));;
      os_Exit 2
  end.

Definition run_program (w : OS) (parse : FlagParse)
    (env : gmap string string) : Outcome * Proc :=
  let (r, s) := program w parse (boot env) in (outcome r, s).
(** ** Symbolic execution of the monadic code *)

Ltac go_unfold :=
  cbv beta iota zeta delta
    [run_main cronolize main job mbind Go_bind mret Go_ret get emit setEnviron redirect
     os_Exit sleepForever when fatal fatalf p pe Fprintln_Stderr
     Println_Stdout log_Printf boot outcome isSet from_option id extend
     fmap option_fmap option_map
     environ os_Stdout os_Stderr log_Output trace length Nat.ltb Nat.leb
     andb orb negb fst snd Command setStdin setStdout setStderr
     Path CmdArgs CmdStdin CmdStdout CmdStderr
     version os_Args0 os_Args1 flags filepath_Clean filepath_EvalSymlinks
     os_OpenFile cron_AddFunc os_Setenv cmd_Start
     flag_log flag_shell flag_shellCommandOption flag_truncate flag_q flag_fg
     flag_Args].

(** Case analysis on the innermost scrutinee the execution is stuck on. *)
Ltac go_case :=
  match goal with
  | |- context [match ?x with _ => _ end] =>
      lazymatch x with
      | context [match _ with _ => _ end] => fail
      | _ => destruct x eqn:?
      end
  end.

Ltac go_step := go_unfold; cbn [app].
Ltac go_run := go_step; repeat (go_case; go_step).

Lemma extend_nil s : extend s [] = s.
Proof. destruct s; unfold extend; cbn. by rewrite app_nil_r. Qed.

Lemma extend_extend s a b : extend (extend s a) b = extend s (a ++ b).
Proof. unfold extend; cbn. by rewrite app_assoc. Qed.

(** One firing, as an equation: the job leaves the environment and the
    streams alone, appends [job_events] to the trace, and ends the process
    with status 1 exactly when [cmd.Run()] answered with an error. *)
Lemma job_spec w command result s :
  job w command result s =
    (match result with Some _ => Exit 1 | None => Continue tt end,
     extend s (job_events w command result s)).
Proof.
  destruct w as [ver a0 a1 [fl fs fsco ft fq ffg fargs] cl ev op ad se st].
  destruct s as [en so se' lo tr].
  unfold job_events, job_cmd.
  go_run; rewrite <- ?app_assoc; try reflexivity; try discriminate.
Qed.

Lemma fire_events_extend w command results s evs :
  fire_events w command results (extend s evs) = fire_events w command results s.
Proof.
  induction results as [|[err|] rest IH]; cbn [fire_events]; [done..|].
  by rewrite IH.
Qed.

Lemma fire_spec w command results s :
  fire w command results s =
    (if existsb failed results then Exit 1 else Continue tt,
     extend s (fire_events w command results s)).
Proof.
  revert s. induction results as [|r rest IH]; intros s.
  - cbn. by rewrite extend_nil.
  - cbn [fire]. unfold mbind, Go_bind at 1. rewrite job_spec.
    destruct r as [err|]; cbn [existsb failed isSet orb fire_events].
    + reflexivity.
    + rewrite IH, extend_extend, fire_events_extend. reflexivity.
Qed.

(** Lookups in concrete lists and counts over appended traces. *)
Lemma count_app f t1 t2 : count f (t1 ++ t2) = (count f t1 + count f t2)%nat.
Proof. unfold count. by rewrite List.filter_app, length_app. Qed.

Lemma count_0_lookup f (t : list Event) i e :
  count f t = 0%nat -> t !! i = Some e -> f e = false.
Proof.
  unfold count. revert i. induction t as [|x t IH]; intros i; [done|].
  cbn [List.filter]. destruct (f x) eqn:Hx; [done|].
  destruct i as [|i]; cbn; intros Hc He.
  - by simplify_eq.
  - by eapply IH.
Qed.

(** ** What [main] guarantees when it blocks *)

Lemma main_blocking_inv w env :
  match main w (boot env) with
  | (Forever, s) => blocking_state w env s
  | _ => True
  end.
Proof.
  destruct w as [ver a0 a1 [fl fs fsco ft fq ffg fargs] cl ev op ad se st].
  unfold blocking_state, isCronProcess, logfileFD, resolved, openFlag,
    cleaned, logfile_of.
  go_run; try exact I.
  all: repeat split; try reflexivity; try (by eexists _, _);
    try (apply lookup_delete_eq); try assumption;
    try (intros; congruence).
Qed.

Lemma main_blocking w env s :
  main w (boot env) = (Forever, s) -> blocking_state w env s.
Proof. intros Hm. pose proof (main_blocking_inv w env) as H. by rewrite Hm in H. Qed.

(** When [main] does not block, no firing ever happens. *)
Lemma cronolize_unfold w env results :
  cronolize w env results =
    match main w (boot env) with
    | (Forever, s) =>
        (if existsb failed results then Exited 1 else Blocking,
         extend s (fire_events w
                     (default EmptyString (flag_Args (flags w) !! 1%nat))
                     results s))
    | (r, s) => (outcome r, s)
    end.
Proof.
  unfold cronolize.
  destruct (main w (boot env)) as [[a|code|] s] eqn:Hm;
    try by destruct (flag_Args (flags w)) as [|? [|? [|? ?]]].
  destruct (main_blocking _ _ _ Hm) as ((spec & command & ->) & _).
  cbn. rewrite fire_spec. by destruct (existsb failed results).
Qed.

Lemma lookup_count_0 f (t : list Event) i e :
  t !! i = Some e -> count f t = 0%nat -> f e = false.
Proof. intros Hi Hc. by eapply count_0_lookup. Qed.

(** Inspect every position of a concrete trace. *)
Ltac each_index H i :=
  repeat (destruct i as [|i]; cbn [lookup list_lookup] in H;
          [ first [discriminate H | simplify_eq] | try discriminate H ]).

(** A lookup of an event of a class the trace has none of. *)
Ltac vacuous f H :=
  let H' := fresh in
  pose proof (lookup_count_0 f _ _ _ H eq_refl) as H'; discriminate H'.

Ltac inspect_trace :=
  let i := fresh "i" in let H := fresh "H" in
  intros i ? ? H;
  first [ vacuous isRun H | vacuous isSetenv H | vacuous isStart H
        | each_index H i ].

(** Find a given tail at the end of a concrete trace. *)
Ltac find_suffix :=
  first [ (exists []; reflexivity) | apply suffix_cons_r; find_suffix ].

(** ** The embedding at work on the sample command lines *)

(** First phase of [cronolize -log out.log -truncate "* * * * *" "echo hi"]:
    the log file is opened and closed, the expression is parsed, the marker
    is set and the copy is started. *)
Example first_phase_trace :
  run_main background_os no_marker =
    (Exited 0,
     mkProc (<[cronolizerEnvVar := envVarValueExpected]> no_marker)
       Stdout Stderr Stderr
       [LookupEnv "__CRONOLIZER__";
        EvalSymlinks "out.log";
        OpenFile "out.log" 1601 438;
        Close (Opened "out.log" 1601 438);
        AddFunc "* * * * *";
        Setenv "__CRONOLIZER__" "INSTANTIATED";
        Start (mkCmd "./cronolize"
                 ["./cronolize"; "-log"; "out.log"; "-truncate"; "* * * * *";
                  "echo hi"] None None None)
              (<[cronolizerEnvVar := envVarValueExpected]> no_marker);
        Println Stdout "Running cron job as PID 4242"]).
Proof. vm_compute. reflexivity. Qed.

(** The relaunched instance of the same command line over two firings, the
    second of which fails. *)
Example relaunched_instance_trace :
  cronolize background_os with_marker [None; Some ErrExit3] =
    (Exited 1,
     mkProc no_marker
       (Opened "out.log" 1601 438) (Opened "out.log" 1601 438)
       (Opened "out.log" 1601 438)
       [LookupEnv "__CRONOLIZER__";
        Unsetenv "__CRONOLIZER__";
        EvalSymlinks "out.log";
        OpenFile "out.log" 1601 438;
        AddFunc "* * * * *";
        CronStart;
        LogPrintf (Opened "out.log" 1601 438) "Running: /bin/sh -c echo hi";
        Run (mkCmd "/bin/sh" ["/bin/sh"; "-c"; "echo hi"] (Some Stdin)
               (Some (Opened "out.log" 1601 438))
               (Some (Opened "out.log" 1601 438))) no_marker;
        LogPrintf (Opened "out.log" 1601 438) "Running: /bin/sh -c echo hi";
        Run (mkCmd "/bin/sh" ["/bin/sh"; "-c"; "echo hi"] (Some Stdin)
               (Some (Opened "out.log" 1601 438))
               (Some (Opened "out.log" 1601 438))) no_marker;
        Println (Opened "out.log" 1601 438) "Error: exit status 3"]).
Proof. vm_compute. reflexivity. Qed.

(** [cronolize -fg "* * * * *" "echo hi"]: no file is touched and the
    process blocks with cron started. *)
Example foreground_trace :
  run_main foreground_os no_marker =
    (Blocking,
     mkProc no_marker Stdout Stderr Stderr
       [LookupEnv "__CRONOLIZER__"; AddFunc "* * * * *"; CronStart]).
Proof. vm_compute. reflexivity. Qed.

(** One firing formatted as the program does it. *)
Example sprintf_pid : Sprintf "Running cron job as PID %d" [Int 4242]
                      = "Running cron job as PID 4242".
Proof. vm_compute. reflexivity. Qed.

(** ** Firings *)

Lemma count_0_elem f (t : list Event) e :
  count f t = 0%nat -> e ∈ t -> f e = false.
Proof.
  intros Hc [i Hi]%list_elem_of_lookup. by eapply count_0_lookup.
Qed.

Lemma job_events_only w command result s :
  Forall (job_event w command s) (job_events w command result s).
Proof.
  unfold job_events.
  destruct (default false (flag_q (flags w))), result; cbn;
    repeat constructor.
Qed.

Lemma fire_events_only w command results s :
  Forall (job_event w command s) (fire_events w command results s).
Proof.
  induction results as [|[err|] rest IH]; cbn [fire_events].
  - constructor.
  - apply job_events_only.
  - apply Forall_app; split; [apply job_events_only | exact IH].
Qed.

(** C2. Whenever a fired command cannot be started or exits with a status
    other than zero (that is, [cmd.Run()] answers with an error), the job
    ends the whole process with [os.Exit(1)], in whatever state the process
    is.  It has run the command once, and the one line [Error: ...] on
    [os.Stderr] is the last thing it does: it does not run the command
    again, and nothing that would follow the job is carried out. *)
Theorem failed_firing_kills_scheduler w command err s :
  ∃ s',
    job w command (Some err) s = (Exit 1, s') ∧
    trace s' =
      (trace s
       ++ (if default false (flag_q (flags w)) then []
           else [LogPrintf (log_Output s)
                   (Sprintf "Running: %s"
                      [Str (Join (CmdArgs (job_cmd w command s)) " ")])])
       ++ [Run (job_cmd w command s) (environ s);
           Println (os_Stderr s) ("Error: " +:+ Error err)])%list ∧
    ∀ (B : Type) (k : unit -> Go B),
      (job w command (Some err) ≫= k) s = (Exit 1, s').
Proof.
  eexists. split; [apply job_spec|]. split.
  - reflexivity.
  - intros B k. unfold mbind, Go_bind. by rewrite job_spec.
Qed.

Lemma failed_firing_kills_scheduler_witness :
  ∃ s',
    job foreground_os "echo hi" (Some ErrExit3) (boot no_marker) = (Exit 1, s') ∧
    trace s' =
      [LogPrintf Stderr "Running: /bin/sh -c echo hi";
       Run (mkCmd "/bin/sh" ["/bin/sh"; "-c"; "echo hi"] None
              (Some Stdout) (Some Stderr)) no_marker;
       Println Stderr "Error: exit status 3"].
Proof.
  destruct (failed_firing_kills_scheduler foreground_os "echo hi" ErrExit3
              (boot no_marker)) as (s' & Hjob & Htrace & _).
  exists s'. split; [exact Hjob|].
  rewrite Htrace. vm_compute. reflexivity.
Defined.

(** ** The input of a fired command *)

Lemma main_no_run w env :
  count isRun (trace (snd (main w (boot env)))) = 0%nat.
Proof.
  destruct w as [ver a0 a1 [fl fs fsco ft fq ffg fargs] cl ev op ad se st].
  go_run; reflexivity.
Qed.

Lemma cronolize_runs w env results cmd e :
  Run cmd e ∈ trace (snd (cronolize w env results)) ->
  ∃ s command,
    main w (boot env) = (Forever, s) ∧
    cmd = job_cmd w command s ∧ e = environ s.
Proof.
  rewrite cronolize_unfold.
  pose proof (main_no_run w env) as Hno.
  destruct (main w (boot env)) as [[a|code|] s] eqn:Hm; cbn in *.
  - intros Hin. by pose proof (count_0_elem _ _ _ Hno Hin).
  - intros Hin. by pose proof (count_0_elem _ _ _ Hno Hin).
  - destruct (existsb failed results); cbn;
      (intros [Hin|Hin]%elem_of_app;
       [by pose proof (count_0_elem _ _ _ Hno Hin)|];
       pose proof (fire_events_only w
                     (default EmptyString (flag_Args (flags w) !! 1%nat))
                     results s) as Hall;
       rewrite Forall_forall in Hall; apply Hall in Hin as [-> ->];
       by eexists _, _).
Qed.

(** C3 (as the code has it). The input of a fired command depends on the
    mode: with the foreground option the job leaves [cmd.Stdin] nil, so the
    command reads from the null device; without it the job assigns
    [os.Stdin], so the command is handed the scheduler's own input. *)
Theorem fired_command_stdin w env results cmd e :
  Run cmd e ∈ trace (snd (cronolize w env results)) ->
  CmdStdin cmd =
    if default false (flag_fg (flags w)) then None else Some Stdin.
Proof.
  intros (s & command & _ & -> & _)%cronolize_runs. reflexivity.
Qed.

Lemma fired_command_stdin_witness :
  ∃ cmd e,
    Run cmd e ∈ trace (snd (cronolize foreground_os no_marker [None])) ∧
    CmdStdin cmd = None.
Proof.
  eexists _, _. split.
  - cbn. apply list_elem_of_lookup. exists 4%nat. reflexivity.
  - exact (fired_command_stdin foreground_os no_marker [None] _ _
             ltac:(apply list_elem_of_lookup; exists 4%nat; reflexivity)).
Defined.

(** In background mode the relaunched instance gives every fired command
    its own standard input. *)
Lemma background_command_inherits_stdin :
  ¬ stdin_disconnected
      (trace (snd (cronolize background_os with_marker [None]))).
Proof.
  intros H.
  specialize (H (job_cmd background_os "echo hi"
                   (snd (main background_os (boot with_marker))))
                (environ (snd (main background_os (boot with_marker))))).
  assert (Hin : Run (job_cmd background_os "echo hi"
                       (snd (main background_os (boot with_marker))))
                    (environ (snd (main background_os (boot with_marker))))
                ∈ trace (snd (cronolize background_os with_marker [None]))).
  { apply list_elem_of_lookup. exists 7%nat. reflexivity. }
  apply H in Hin. discriminate Hin.
Qed.

(** ** The marker variable *)

Lemma main_marker w env :
  match main w (boot env) with
  | (Forever, _) => True
  | (_, s) => marker_discipline w env (trace s)
  end.
Proof.
  destruct w as [ver a0 a1 [fl fs fsco ft fq ffg fargs] cl ev op ad se st].
  unfold marker_discipline, isCronProcess.
  go_run; try exact I.
  all: refine (conj _ (conj _ (conj _ (conj _ (conj _ (conj _ _)))))).
  all: try reflexivity; try (intros; first [reflexivity | congruence]).
  all: try inspect_trace.
  all: repeat split; try reflexivity; try assumption; try congruence;
    try (apply lookup_insert_eq); try (by eexists);
    try (intros; by eexists _, _).
Qed.

Lemma job_event_count w command s (t : list Event) (f : Event -> bool) :
  (∀ e, job_event w command s e -> f e = false) ->
  Forall (job_event w command s) t -> count f t = 0%nat.
Proof.
  intros Hf. unfold count. induction 1 as [|e t He _ IH]; [done|].
  cbn. by rewrite (Hf e He).
Qed.

(** C5. The marker variable is looked up exactly once, as the first thing
    the process does, and when it is present it is unset right after,
    whatever its value.  No fired command is started with the marker in its
    environment.  The marker is set again only by a process that is not the
    relaunched instance and runs without the foreground option, to the
    expected value, and the very next thing that process does (when the
    call succeeds) is to start the detached child, which is the only
    process that gets the marker.  A relaunched instance starts no child. *)
Theorem marker_read_once_then_cleared w env results :
  let t := trace (snd (cronolize w env results)) in
  head t = Some (LookupEnv cronolizerEnvVar) ∧
  count isLookupEnv t = 1%nat ∧
  (∀ v, env !! cronolizerEnvVar = Some v ->
        t !! 1%nat = Some (Unsetenv cronolizerEnvVar)) ∧
  (∀ i cmd e, t !! i = Some (Run cmd e) -> e !! cronolizerEnvVar = None) ∧
  (∀ i k v, t !! i = Some (Setenv k v) ->
        k = cronolizerEnvVar ∧ v = envVarValueExpected ∧
        isCronProcess env = false ∧
        default false (flag_fg (flags w)) = false ∧
        (os_Setenv w k v = None ->
         ∃ cmd e, t !! S i = Some (Start cmd e))) ∧
  (∀ i cmd e, t !! i = Some (Start cmd e) ->
        e !! cronolizerEnvVar = Some envVarValueExpected ∧
        ∃ j, i = S j ∧
             t !! j = Some (Setenv cronolizerEnvVar envVarValueExpected)) ∧
  (isCronProcess env = true -> count isStart t = 0%nat).
Proof.
  change (marker_discipline w env (trace (snd (cronolize w env results)))).
  rewrite cronolize_unfold.
  pose proof (main_marker w env) as Hmain.
  destruct (main w (boot env)) as [[a|code|] s] eqn:Hm; cbn [snd outcome];
    [exact Hmain..|].
  destruct (main_blocking _ _ _ Hm)
    as (_ & Hmode & Henv & Hrun & Hset & Hstart & _ & Hlook & Hhd & Hun & _).
  set (command := default EmptyString (flag_Args (flags w) !! 1%nat)).
  pose proof (fire_events_only w command results s) as Hall.
  set (evs := fire_events w command results s) in *.
  enough (Hgoal : marker_discipline w env (trace s ++ evs)%list)
    by (by destruct (existsb failed results)).
  assert (Hin : ∀ i e, ((trace s ++ evs)%list) !! i = Some e ->
                       trace s !! i = Some e ∨ job_event w command s e).
  { intros i e [Hi|[_ Hi]]%lookup_app_Some; [by left|right].
    by eapply Forall_lookup_1. }
  refine (conj _ (conj _ (conj _ (conj _ (conj _ (conj _ _)))))).
  - destruct (trace s); [discriminate Hhd | exact Hhd].
  - rewrite count_app, Hlook.
    by rewrite (job_event_count w command s evs isLookupEnv
                  ltac:(intros e' He'; by destruct e') Hall).
  - intros v Hv. apply lookup_app_l_Some. by eapply Hun.
  - intros i cmd e [Hi|[_ ->]]%Hin; [|exact Henv].
    by pose proof (count_0_lookup _ _ _ _ Hrun Hi).
  - intros i k v [Hi|[]]%Hin.
    by pose proof (count_0_lookup _ _ _ _ Hset Hi).
  - intros i cmd e [Hi|[]]%Hin.
    by pose proof (count_0_lookup _ _ _ _ Hstart Hi).
  - intros _. rewrite count_app, Hstart.
    by rewrite (job_event_count w command s evs isStart
                  ltac:(intros e' He'; by destruct e') Hall).
Qed.

(** The relaunched instance of the sample command line: the marker it was
    started with is gone from the environment of the command it fires. *)
Lemma marker_read_once_then_cleared_witness :
  with_marker !! cronolizerEnvVar = Some envVarValueExpected ∧
  trace (snd (cronolize background_os with_marker [None])) !! 1%nat
    = Some (Unsetenv cronolizerEnvVar) ∧
  trace (snd (cronolize background_os with_marker [None])) !! 7%nat
    = Some (Run (job_cmd background_os "echo hi"
                   (snd (main background_os (boot with_marker))))
                (delete cronolizerEnvVar with_marker)) ∧
  delete cronolizerEnvVar with_marker !! cronolizerEnvVar = None.
Proof.
  pose proof (marker_read_once_then_cleared background_os with_marker [None])
    as (_ & _ & Hunset & Hrun & _).
  assert (H7 : trace (snd (cronolize background_os with_marker [None])) !! 7%nat
               = Some (Run (job_cmd background_os "echo hi"
                              (snd (main background_os (boot with_marker))))
                           (delete cronolizerEnvVar with_marker)))
    by (vm_compute; reflexivity).
  split; [vm_compute; reflexivity|]. split; [|split].
  - apply (Hunset envVarValueExpected). vm_compute; reflexivity.
  - exact H7.
  - exact (Hrun 7%nat _ _ H7).
Defined.

(** ** The relaunch branch *)

(** C6. A process that is not the relaunched instance and runs without the
    foreground option, once its start-up checks have passed and the system
    has let it set the marker and start a process, ends like this: it sets
    the marker, starts the same program with the same arguments, with all
    three streams of the child nil and with its own environment plus the
    marker, prints the child's PID on its standard output unless it was
    told to be quiet, and exits with status 0.  It starts exactly one
    child, waits for nothing and never starts cron itself. *)
Theorem relaunch_branch w env spec command pid :
  flag_Args (flags w) = [spec; command] ->
  default false (flag_fg (flags w)) = false ->
  isSet (flag_log (flags w)) && isSet (flag_fg (flags w)) = false ->
  isCronProcess env = false ->
  resolves w = true ->
  os_OpenFile w (resolved w) (openFlag w) perm0666 = None ->
  cron_AddFunc w spec = None ->
  os_Setenv w cronolizerEnvVar envVarValueExpected = None ->
  cmd_Start w (mkCmd (os_Args0 w) (os_Args0 w :: os_Args1 w) None None None)
    = inr pid ->
  ∃ s, run_main w env = (Exited 0, s) ∧
       ([Setenv cronolizerEnvVar envVarValueExpected;
         Start (mkCmd (os_Args0 w) (os_Args0 w :: os_Args1 w) None None None)
               (<[cronolizerEnvVar := envVarValueExpected]> env)]
        ++ (if default false (flag_q (flags w)) then []
            else [Println Stdout
                    (Sprintf "Running cron job as PID %d" [Int pid])]))%list
         `suffix_of` trace s ∧
       count isStart (trace s) = 1%nat ∧
       count isRun (trace s) = 0%nat ∧
       count isCronStart (trace s) = 0%nat.
Proof.
  destruct w as [ver a0 a1 [fl fs fsco ft fq ffg fargs] cl ev op ad se st].
  unfold isCronProcess, resolves, resolved, openFlag, cleaned, logfile_of.
  cbn [flags flag_Args flag_fg flag_log flag_q flag_truncate os_Args0 os_Args1
       filepath_Clean filepath_EvalSymlinks os_OpenFile cron_AddFunc os_Setenv
       cmd_Start].
  intros -> Hfg Hboth Hcron Hres Hopen Hparse Hset Hstart.
  revert Hfg Hboth Hcron Hres Hopen.
  go_unfold. rewrite Hparse, Hset, Hstart.
  go_run; intros; try discriminate; try congruence.
  all: eexists; split; [reflexivity|]; cbn [trace];
    rewrite ?insert_delete_eq; repeat split; try reflexivity; try find_suffix.
Qed.

Lemma relaunch_branch_witness :
  ∃ s, run_main background_os no_marker = (Exited 0, s) ∧
       ([Setenv cronolizerEnvVar envVarValueExpected;
         Start (mkCmd "./cronolize"
                  ["./cronolize"; "-log"; "out.log"; "-truncate";
                   "* * * * *"; "echo hi"] None None None)
               (<[cronolizerEnvVar := envVarValueExpected]> no_marker)]
        ++ [Println Stdout "Running cron job as PID 4242"])%list
         `suffix_of` trace s ∧
       count isStart (trace s) = 1%nat ∧
       count isRun (trace s) = 0%nat ∧
       count isCronStart (trace s) = 0%nat.
Proof.
  apply (relaunch_branch background_os no_marker "* * * * *" "echo hi" 4242);
    vm_compute; reflexivity.
Defined.

(** ** Errors at start-up *)

(** C7. When both the foreground option and the log option were given, the
    process writes to standard error and exits with status 1, having
    touched no file and scheduled nothing; with the two positional
    arguments in place, what it writes is the one line that says the two
    options cannot be combined. *)
Theorem fg_and_log_rejected w env :
  isSet (flag_fg (flags w)) = true ->
  isSet (flag_log (flags w)) = true ->
  ∃ s, run_main w env = (Exited 1, s) ∧
       count isFileIO (trace s) = 0%nat ∧
       count isScheduling (trace s) = 0%nat ∧
       count isStart (trace s) = 0%nat ∧
       (∃ line, last (trace s) = Some (Println Stderr line)) ∧
       (length (flag_Args (flags w)) = 2%nat ->
        List.filter isOutput (trace s) =
          [Println Stderr
             "Syntax error: you can not combine the -log and the -fg option."]).
Proof.
  destruct w as [ver a0 a1 [fl fs fsco ft fq ffg fargs] cl ev op ad se st].
  cbn [flags flag_fg flag_log flag_Args].
  destruct ffg as [fg|]; [|discriminate]. destruct fl as [lg|]; [|discriminate].
  intros _ _.
  go_run.
  all: eexists; split; [reflexivity|]; repeat split; try reflexivity;
    try (eexists; reflexivity); try (cbn; discriminate).
Qed.

Lemma fg_and_log_rejected_witness :
  ∃ s, run_main combined_os no_marker = (Exited 1, s) ∧
       count isFileIO (trace s) = 0%nat ∧
       count isScheduling (trace s) = 0%nat ∧
       count isStart (trace s) = 0%nat ∧
       (∃ line, last (trace s) = Some (Println Stderr line)) ∧
       (length (flag_Args (flags combined_os)) = 2%nat ->
        List.filter isOutput (trace s) =
          [Println Stderr
             "Syntax error: you can not combine the -log and the -fg option."]).
Proof.
  apply (fg_and_log_rejected combined_os no_marker); reflexivity.
Defined.

(** C9. An expression that cron's parser rejects ends the process with
    status 1 when the job is registered: before cron is started, before the
    marker is set and before any child is started, in every mode, and no
    firing ever happens. *)
Theorem malformed_expression_rejected w env results spec command err :
  flag_Args (flags w) = [spec; command] ->
  cron_AddFunc w spec = Some err ->
  ∃ s, run_main w env = (Exited 1, s) ∧
       cronolize w env results = (Exited 1, s) ∧
       count isStart (trace s) = 0%nat ∧
       count isSetenv (trace s) = 0%nat ∧
       count isCronStart (trace s) = 0%nat ∧
       count isRun (trace s) = 0%nat.
Proof.
  destruct w as [ver a0 a1 [fl fs fsco ft fq ffg fargs] cl ev op ad se st].
  cbn [flags flag_Args cron_AddFunc]. intros -> Hparse.
  go_unfold. rewrite !Hparse.
  go_run.
  all: eexists; repeat split; try reflexivity.
Qed.

Lemma malformed_expression_rejected_witness :
  ∃ s, run_main malformed_os no_marker = (Exited 1, s) ∧
       cronolize malformed_os no_marker [None] = (Exited 1, s) ∧
       count isStart (trace s) = 0%nat ∧
       count isSetenv (trace s) = 0%nat ∧
       count isCronStart (trace s) = 0%nat ∧
       count isRun (trace s) = 0%nat.
Proof.
  apply (malformed_expression_rejected malformed_os no_marker [None]
           "every minute" "echo hi" ErrParse); reflexivity.
Defined.

(** C8 (as the code has it). Each start-up condition ends the process with
    status 1 before cron is started and before anything is spawned or
    fired, and what the process has written by then is exactly the
    diagnostic of that condition: the help text of several lines for a
    wrong number of positional arguments; the one line [Syntax error: ...],
    without the [Error:] marker, for the two options combined; the one
    line [Error: ...] for a path, open or parse error.  The diagnostic
    goes to standard error, except for the parse error of a relaunched
    instance, whose [os.Stderr] is the log file by then. *)
Theorem startup_errors_are_fatal w env f :
  startup_error w = Some f ->
  ∃ s, run_main w env = (Exited 1, s) ∧
       List.filter isOutput (trace s) = diagnostic w f (error_stream w env f) ∧
       diagnostic w f (error_stream w env f) `suffix_of` trace s ∧
       count isCronStart (trace s) = 0%nat ∧
       count isStart (trace s) = 0%nat ∧
       count isRun (trace s) = 0%nat.
Proof.
  destruct w as [ver a0 a1 [fl fs fsco ft fq ffg fargs] cl ev op ad se st].
  unfold startup_error, log_error, error_stream, diagnostic, isCronProcess,
    logfileFD, resolved, openFlag, cleaned, logfile_of.
  go_run.
  all: intros Hf; try first [discriminate Hf | injection Hf as <-].
  all: try (eexists; split; [reflexivity|]; cbn [trace];
            repeat split; try reflexivity; try find_suffix).
Qed.

Lemma startup_errors_are_fatal_witness :
  startup_error unwritable_os = Some (OpenError ErrPermission) ∧
  ∃ s, run_main unwritable_os no_marker = (Exited 1, s) ∧
       List.filter isOutput (trace s)
         = [Println Stderr "Error: open out.log: permission denied"] ∧
       [Println Stderr "Error: open out.log: permission denied"]
         `suffix_of` trace s ∧
       count isCronStart (trace s) = 0%nat ∧
       count isStart (trace s) = 0%nat ∧
       count isRun (trace s) = 0%nat.
Proof.
  split; [reflexivity|].
  apply (startup_errors_are_fatal unwritable_os no_marker
           (OpenError ErrPermission)).
  reflexivity.
Defined.

(** Three start-up conditions whose output is not one line on standard
    error that begins with [Error:]: the help text for a missing
    positional argument, the line for the two options combined, and the
    parse error of a relaunched instance, which lands in the log file. *)
Lemma startup_diagnostics_differ :
  (startup_error short_os = Some UsageCount ∧
   fst (run_main short_os no_marker) = Exited 1 ∧
   ¬ one_marked_line_on_stderr (trace (snd (run_main short_os no_marker)))) ∧
  (startup_error combined_os = Some UsageCombination ∧
   fst (run_main combined_os no_marker) = Exited 1 ∧
   ¬ one_marked_line_on_stderr (trace (snd (run_main combined_os no_marker)))) ∧
  (startup_error malformed_os = Some (ParseError ErrParse) ∧
   fst (run_main malformed_os with_marker) = Exited 1 ∧
   ¬ one_marked_line_on_stderr (trace (snd (run_main malformed_os with_marker)))).
Proof.
  repeat split; try (vm_compute; reflexivity).
  - intros [msg H]. vm_compute in H. discriminate H.
  - intros [msg H]. vm_compute in H. discriminate H.
  - intros [msg H]. vm_compute in H. discriminate H.
Qed.

(** ** The log file in the first phase *)

Lemma relaunched_opens_log w child env :
  length (flag_Args (flags w)) = 2%nat ->
  default false (flag_fg (flags w)) = false ->
  isSet (flag_log (flags w)) && isSet (flag_fg (flags w)) = false ->
  isCronProcess env = true ->
  resolves (relaunched w child) = true ->
  ∃ i, trace (snd (run_main (relaunched w child) env)) !! i
         = Some (OpenFile (resolved (relaunched w child)) (openFlag w)
                   perm0666) ∧
       count isClose (trace (snd (run_main (relaunched w child) env))) = 0%nat.
Proof.
  destruct w as [ver a0 a1 [fl fs fsco ft fq ffg fargs] cl ev op ad se st].
  destruct child as [ver' a0' a1' fl' cl' ev' op' ad' se' st'].
  unfold relaunched, isCronProcess, resolves, resolved, openFlag, cleaned,
    logfile_of.
  go_run; intros; try discriminate; try congruence.
  all: first [ by exists 2%nat | by exists 3%nat ].
Qed.

(** C10. Without the foreground option, a process that is not the relaunched
    instance and whose start-up has come as far as the log file opens it
    itself, write-only and for appending, with [O_CREATE], and with
    [O_TRUNC] exactly when the truncate option is set.  If that fails it
    prints the error and exits with status 1 and no child is ever started;
    otherwise the very next thing it does is close the file, and until
    then it has started no child.  The relaunched instance, run with the
    same command line, opens the file again with the same flags, so with
    the truncate option the file is truncated twice; it never closes it. *)
Theorem first_phase_opens_and_closes_log w env spec command :
  flag_Args (flags w) = [spec; command] ->
  default false (flag_fg (flags w)) = false ->
  isSet (flag_log (flags w)) && isSet (flag_fg (flags w)) = false ->
  isCronProcess env = false ->
  resolves w = true ->
  Z.land (openFlag w) O_CREATE = O_CREATE ∧
  Z.land (openFlag w) O_TRUNC
    = (if default false (flag_truncate (flags w)) then O_TRUNC else 0) ∧
  (∃ i, trace (snd (run_main w env)) !! i
          = Some (OpenFile (resolved w) (openFlag w) perm0666) ∧
        count isStart (take (S (S i)) (trace (snd (run_main w env)))) = 0%nat ∧
        match os_OpenFile w (resolved w) (openFlag w) perm0666 with
        | None =>
            trace (snd (run_main w env)) !! S i = Some (Close (logfileFD w))
        | Some err =>
            fst (run_main w env) = Exited 1 ∧
            drop (S i) (trace (snd (run_main w env)))
              = [Println Stderr ("Error: " +:+ Error err)] ∧
            count isStart (trace (snd (run_main w env))) = 0%nat
        end) ∧
  (∀ child env',
     isCronProcess env' = true ->
     resolves (relaunched w child) = true ->
     ∃ i, trace (snd (run_main (relaunched w child) env')) !! i
            = Some (OpenFile (resolved (relaunched w child)) (openFlag w)
                      perm0666) ∧
          count isClose (trace (snd (run_main (relaunched w child) env')))
            = 0%nat).
Proof.
  intros Hargs Hfg Hboth Hcron Hres.
  split; [|split; [|split]].
  - unfold openFlag. by destruct (default false (flag_truncate (flags w))).
  - unfold openFlag. by destruct (default false (flag_truncate (flags w))).
  - revert Hargs Hfg Hboth Hcron Hres.
    destruct w as [ver a0 a1 [fl fs fsco ft fq ffg fargs] cl ev op ad se st].
    unfold logfileFD, isCronProcess, resolves, resolved, openFlag, cleaned,
      logfile_of.
    cbn [flags flag_Args flag_fg flag_log flag_q flag_truncate
         filepath_Clean filepath_EvalSymlinks os_OpenFile].
    intros ->.
    go_run; intros; try discriminate; try congruence.
    all: first [ exists 2%nat; repeat split; reflexivity
               | exists 3%nat; repeat split; reflexivity ].
  - intros child env' Hchild Hres'.
    apply relaunched_opens_log; try assumption. by rewrite Hargs.
Qed.

Lemma first_phase_opens_and_closes_log_witness :
  Z.land (openFlag background_os) O_TRUNC = O_TRUNC ∧
  trace (snd (run_main background_os no_marker)) !! 2%nat
    = Some (OpenFile "out.log" 1601 perm0666) ∧
  trace (snd (run_main background_os no_marker)) !! 3%nat
    = Some (Close (Opened "out.log" 1601 perm0666)) ∧
  ∃ i, trace (snd (run_main (relaunched background_os background_os)
                     with_marker)) !! i
         = Some (OpenFile "out.log" 1601 perm0666).
Proof.
  destruct (first_phase_opens_and_closes_log background_os no_marker
              "* * * * *" "echo hi")
    as (_ & Htrunc & _ & Hchild); try (vm_compute; reflexivity).
  split; [exact Htrunc|].
  split; [vm_compute; reflexivity|].
  split; [vm_compute; reflexivity|].
  destruct (Hchild background_os with_marker) as (i & Hi & _);
    try (vm_compute; reflexivity).
  exists i. exact Hi.
Defined.

(** ** The search for the next fire time *)

Section Scan.
Import Recurrence.
Variable spec : RecurrenceSpec.

(** What [scan] answers is the first matching candidate. *)
Lemma scan_sound fuel c r :
  scan spec fuel c = Some r ->
  ∃ k : nat, (k < fuel)%nat ∧ r = c + 60 * Z.of_nat k ∧
             matches spec r = true ∧
             ∀ j : nat, (j < k)%nat -> matches spec (c + 60 * Z.of_nat j) = false.
Proof.
  revert c. induction fuel as [|fuel IH]; intros c; cbn [scan]; [done|].
  destruct (matches spec c) eqn:Hc.
  - intros [= <-]. exists 0%nat. repeat split; [lia | lia | done | intros; lia].
  - intros (k & Hk & -> & Hm & Hfirst)%IH.
    exists (S k). repeat split; [lia | lia | done |].
    intros [|j] Hj.
    + by replace (c + 60 * Z.of_nat 0) with c by lia.
    + replace (c + 60 * Z.of_nat (S j)) with (c + 60 + 60 * Z.of_nat j) by lia.
      apply Hfirst. lia.
Qed.

(** A matching candidate within reach makes [scan] answer. *)
Lemma scan_complete fuel c (k : nat) :
  (k < fuel)%nat ->
  matches spec (c + 60 * Z.of_nat k) = true ->
  ∃ r, scan spec fuel c = Some r.
Proof.
  revert c k. induction fuel as [|fuel IH]; intros c k Hk Hm; [lia|].
  cbn [scan]. destruct (matches spec c) eqn:Hc; [by eexists|].
  destruct k as [|k].
  - replace (c + 60 * Z.of_nat 0) with c in Hm by lia. congruence.
  - apply (IH (c + 60) k); [lia|].
    by replace (c + 60 + 60 * Z.of_nat k) with (c + 60 * Z.of_nat (S k)) by lia.
Qed.

Lemma scan_none fuel c :
  (∀ t, matches spec t = false) -> scan spec fuel c = None.
Proof.
  intros Hno. revert c. induction fuel as [|fuel IH]; intros c; [done|].
  cbn [scan]. by rewrite Hno.
Qed.
End Scan.

Lemma first_candidate_after t :
  t < Recurrence.first_candidate t <= t + 60 ∧
  Recurrence.first_candidate t mod 60 = 0.
Proof. unfold Recurrence.first_candidate. Z.div_mod_to_equations; lia. Qed.

(** Every minute boundary between two candidates is a candidate. *)
Lemma minute_boundary_is_candidate t u :
  t < u -> u mod 60 = 0 ->
  ∃ j : nat, u = Recurrence.first_candidate t + 60 * Z.of_nat j.
Proof.
  intros Htu Hu. unfold Recurrence.first_candidate.
  exists (Z.to_nat (u / 60 - t / 60 - 1)). Z.div_mod_to_equations; lia.
Qed.

(** February has no 30th and no 31st. *)
Lemma february_is_short local :
  Recurrence.month_of local = 2 -> Recurrence.day_of_month_of local <= 29.
Proof.
  unfold Recurrence.month_of, Recurrence.day_of_month_of.
  assert (Hdoe : 0 <= Recurrence.day_of_era local < 146097)
    by (apply Z.mod_pos_bound; lia).
  generalize dependent (Recurrence.day_of_era local). intros doe Hdoe.
  assert (Hdoy : 0 <= Recurrence.day_of_year doe <= 365).
  { unfold Recurrence.day_of_year, Recurrence.year_of_era.
    Z.div_mod_to_equations; lia. }
  generalize dependent (Recurrence.day_of_year doe). intros doy Hdoy.
  cbn zeta. destruct (_ <? 10)%Z eqn:Hmp; Z.div_mod_to_equations; lia.
Qed.

Lemma february_31_never_matches t :
  Recurrence.matches Recurrence.february_31 t = false.
Proof.
  unfold Recurrence.matches, Recurrence.day_matches, Recurrence.accepts,
    Recurrence.february_31; cbn [Recurrence.minute Recurrence.hour
    Recurrence.month Recurrence.day_of_month Recurrence.day_of_week
    Recurrence.zone existsb orb].
  pose proof (february_is_short (t + 0)) as Hshort.
  destruct (Recurrence.minute_of (t + 0) =? 0)%Z; [|done].
  destruct (Recurrence.hour_of (t + 0) =? 0)%Z; [|done].
  destruct (Recurrence.month_of (t + 0) =? 2)%Z eqn:Hm; [|done].
  destruct (Recurrence.day_of_month_of (t + 0) =? 31)%Z eqn:Hd; [|done].
  lia.
Qed.

(** C4 (spec-modelled, as the algorithm has it). An instant that [next]
    returns is strictly later than the reference instant, lies on a minute
    boundary, satisfies all fields (day-of-month and day-of-week OR-ed when
    both are restricted), and no minute boundary strictly between the
    reference instant and it satisfies all fields.  [next] does return an
    instant whenever some minute boundary after the reference instant and
    within the search horizon satisfies all fields. *)
Theorem next_is_earliest_match spec t :
  (∀ r, Recurrence.next spec t = Some r ->
        t < r ∧ r mod 60 = 0 ∧ Recurrence.matches spec r = true ∧
        ∀ u, t < u < r -> u mod 60 = 0 -> Recurrence.matches spec u = false) ∧
  (∀ u, t < u ->
        u < Recurrence.first_candidate t + 60 * Z.of_nat Recurrence.horizon ->
        u mod 60 = 0 ->
        Recurrence.matches spec u = true ->
        ∃ r, Recurrence.next spec t = Some r).
Proof.
  pose proof (first_candidate_after t) as [Hafter Hmin].
  unfold Recurrence.next. split.
  - intros r (k & Hk & -> & Hm & Hfirst)%scan_sound.
    repeat split; [lia | Z.div_mod_to_equations; lia | done |].
    intros u Hu Hu60.
    destruct (minute_boundary_is_candidate t u) as (j & ->); [lia | done |].
    apply Hfirst. lia.
  - intros u Htu Hhor Hu60 Hm.
    destruct (minute_boundary_is_candidate t u) as (j & ->); [lia | done |].
    apply (scan_complete spec _ _ j); [lia | done].
Qed.

Lemma next_is_earliest_match_witness :
  Recurrence.next Recurrence.daily_1337 0 = Some 49020 ∧
  0 < 49020 ∧ 49020 mod 60 = 0 ∧
  Recurrence.matches Recurrence.daily_1337 49020 = true ∧
  ∀ u, 0 < u < 49020 -> u mod 60 = 0 ->
       Recurrence.matches Recurrence.daily_1337 u = false.
Proof.
  assert (H : Recurrence.next Recurrence.daily_1337 0 = Some 49020)
    by (vm_compute; reflexivity).
  split; [exact H|].
  exact (proj1 (next_is_earliest_match Recurrence.daily_1337 0) 49020 H).
Defined.

(** A valid expression for which [next] returns no instant, and a valid
    expression with an instant strictly between the reference instant and
    the returned one that satisfies all fields (it is not on a minute
    boundary). *)
Lemma next_is_partial_and_minute_grained :
  (Recurrence.valid Recurrence.february_31 = true ∧
   Recurrence.next Recurrence.february_31 0 = None) ∧
  (Recurrence.valid Recurrence.every_minute = true ∧
   Recurrence.next Recurrence.every_minute 10 = Some 60 ∧
   10 < 30 < 60 ∧
   Recurrence.matches Recurrence.every_minute 30 = true).
Proof.
  split; [split; [reflexivity|] | repeat split; try (vm_compute; reflexivity)].
  apply scan_none, february_31_never_matches.
Qed.

(** ** The exit status *)

Lemma main_outcome_eq w env :
  fst (run_main w env) = expected_outcome w env.
Proof.
  destruct w as [ver a0 a1 [fl fs fsco ft fq ffg fargs] cl ev op ad se st].
  unfold expected_outcome, blocks, startup_error, log_error, isCronProcess,
    resolved, openFlag, cleaned, logfile_of.
  go_run; reflexivity.
Qed.

(** [cronolize -h]: the usage on standard error, status 0; and an option
    that is not defined: the message, the usage, status 2. *)
Example help_requested_trace :
  run_program short_os HelpRequested no_marker =
    (Exited 0,
     mkProc no_marker Stdout Stderr Stderr
       [LookupEnv "__CRONOLIZER__"; FlagUsage Stderr]).
Proof. vm_compute. reflexivity. Qed.

Example rejected_option_trace :
  run_program short_os (Rejected "flag provided but not defined: -x")
    with_marker =
    (Exited 2,
     mkProc no_marker Stdout Stderr Stderr
       [LookupEnv "__CRONOLIZER__"; Unsetenv "__CRONOLIZER__";
        Println Stderr "flag provided but not defined: -x";
        FlagUsage Stderr]).
Proof. vm_compute. reflexivity. Qed.

(** X1. The program blocks exactly when [flag.Parse()] returns, the
    start-up checks pass and the process is the relaunched instance or runs
    with the foreground option.  It exits with status 0 exactly when
    [flag.Parse()] was asked for help, or when it returns, the checks pass,
    the process is to relaunch, and both setting the marker and starting
    the copy succeed.  It exits with status 2 exactly when [flag.Parse()]
    rejects the command line, and with status 1 in every other run. *)
Theorem program_outcome w parse env :
  (fst (run_program w parse env) = Blocking <->
     parse = Returned ∧ startup_error w = None ∧ blocks w env = true) ∧
  (fst (run_program w parse env) = Exited 0 <->
     parse = HelpRequested ∨
     (parse = Returned ∧ startup_error w = None ∧ blocks w env = false ∧
      relaunch_error w = None)) ∧
  (fst (run_program w parse env) = Exited 2 <-> ∃ msg, parse = Rejected msg) ∧
  (fst (run_program w parse env) = Blocking ∨
   fst (run_program w parse env) = Exited 0 ∨
   fst (run_program w parse env) = Exited 1 ∨
   fst (run_program w parse env) = Exited 2).
Proof.
  destruct parse as [| |msg].
  - change (run_program w Returned env) with (run_main w env).
    rewrite main_outcome_eq. unfold expected_outcome, relaunch_error.
    destruct (startup_error w), (blocks w env),
      (os_Setenv w cronolizerEnvVar envVarValueExpected),
      (cmd_Start w (mkCmd (os_Args0 w) (os_Args0 w :: os_Args1 w)
                      None None None));
      repeat split; intros; destruct_or?; destruct_and?; try discriminate;
      try done; auto; try (by destruct H).
  - assert (Ho : fst (run_program w HelpRequested env) = Exited 0).
    { unfold run_program, program, readMarker. go_unfold.
      by destruct (env !! cronolizerEnvVar). }
    rewrite Ho. repeat split; intros; destruct_or?; destruct_and?;
      try discriminate; auto; try (by destruct H).
  - assert (Ho : fst (run_program w (Rejected msg) env) = Exited 2).
    { unfold run_program, program, readMarker. go_unfold.
      by destruct (env !! cronolizerEnvVar). }
    rewrite Ho. repeat split; intros; destruct_or?; destruct_and?;
      try discriminate; eauto 6; try (by destruct H).
Qed.

(** ** The state in which the scheduler runs *)

Lemma main_blocking_streams w env :
  match main w (boot env) with
  | (Forever, s) =>
      environ s = delete cronolizerEnvVar env ∧
      os_Stdout s = scheduler_stream w env Stdout ∧
      os_Stderr s = scheduler_stream w env Stderr ∧
      log_Output s = scheduler_stream w env Stderr ∧
      count isLogPrintf (trace s) = 0%nat ∧
      count isFileIO (trace s) =
        (if default false (flag_fg (flags w)) then 0 else 2)%nat
  | _ => True
  end.
Proof.
  destruct w as [ver a0 a1 [fl fs fsco ft fq ffg fargs] cl ev op ad se st].
  unfold scheduler_stream, logfileFD, isCronProcess, resolved, openFlag,
    cleaned, logfile_of.
  go_run; try exact I.
  all: repeat split; try reflexivity; try (symmetry; by apply delete_id).
Qed.

(** The life of a process whose [main] blocks. *)
Lemma cronolize_blocking w env s :
  main w (boot env) = (Forever, s) ->
  ∃ spec command,
    flag_Args (flags w) = [spec; command] ∧
    ∀ results,
      cronolize w env results =
        (if existsb failed results then Exited 1 else Blocking,
         extend s (fire_events w command results s)).
Proof.
  intros Hm.
  destruct (main_blocking _ _ _ Hm) as ((spec & command & Hargs) & _).
  exists spec, command. split; [done|]. intros results.
  rewrite cronolize_unfold, Hm, Hargs. reflexivity.
Qed.

Lemma cronolize_run_inv w env results cmd e :
  Run cmd e ∈ trace (snd (cronolize w env results)) ->
  ∃ s spec command,
    main w (boot env) = (Forever, s) ∧
    flag_Args (flags w) = [spec; command] ∧
    cmd = job_cmd w command s ∧ e = environ s.
Proof.
  intros Hin.
  destruct (cronolize_runs _ _ _ _ _ Hin) as (s & c0 & Hm & _ & _).
  destruct (cronolize_blocking _ _ _ Hm) as (spec & command & Hargs & Hlife).
  rewrite Hlife in Hin. 
  assert (Hin' : Run cmd e ∈ (trace s ++ fire_events w command results s)%list)
    by (by destruct (existsb failed results)).
  destruct (main_blocking _ _ _ Hm) as (_ & _ & _ & Hrun & _).
  apply elem_of_app in Hin' as [Hin'|Hin'].
  - by pose proof (count_0_elem _ _ _ Hrun Hin').
  - pose proof (fire_events_only w command results s) as Hall.
    rewrite Forall_forall in Hall. apply Hall in Hin' as [-> ->].
    by exists s, spec, command.
Qed.

(** X2. Every fired command is started with the environment the scheduler
    itself was started with, less the marker variable: nothing else is
    added, removed or changed. *)
Theorem fired_command_environment w env results cmd e :
  Run cmd e ∈ trace (snd (cronolize w env results)) ->
  e = delete cronolizerEnvVar env.
Proof.
  intros (s & spec & command & Hm & _ & _ & ->)%cronolize_run_inv.
  pose proof (main_blocking_streams w env) as H. rewrite Hm in H.
  by destruct H as (-> & _).
Qed.

(** X3. The output and error streams of every fired command are those of
    the scheduler at that time: the log file in the relaunched instance run
    without the foreground option, the scheduler's own standard output and
    standard error otherwise. *)
Theorem fired_command_output w env results cmd e :
  Run cmd e ∈ trace (snd (cronolize w env results)) ->
  CmdStdout cmd = Some (scheduler_stream w env Stdout) ∧
  CmdStderr cmd = Some (scheduler_stream w env Stderr).
Proof.
  intros (s & spec & command & Hm & _ & -> & _)%cronolize_run_inv.
  pose proof (main_blocking_streams w env) as H. rewrite Hm in H.
  destruct H as (_ & Hout & Herr & _). cbn. by rewrite Hout, Herr.
Qed.

(** X4. Every fired command is the shell given the second positional
    argument: [shell option command] when the shell's command option is not
    empty, [shell command] when it is. *)
Theorem fired_command_argv w env results cmd e :
  Run cmd e ∈ trace (snd (cronolize w env results)) ->
  ∃ spec command,
    flag_Args (flags w) = [spec; command] ∧
    Path cmd = default "/bin/sh" (flag_shell (flags w)) ∧
    CmdArgs cmd =
      if (String.length (default "-c" (flag_shellCommandOption (flags w)))
          =? 0)%nat
      then [default "/bin/sh" (flag_shell (flags w)); command]
      else [default "/bin/sh" (flag_shell (flags w));
            default "-c" (flag_shellCommandOption (flags w)); command].
Proof.
  intros (s & spec & command & Hm & Hargs & -> & _)%cronolize_run_inv.
  by exists spec, command.
Qed.

(** The command the relaunched instance of the sample command line fires. *)
Lemma sample_firing :
  Run (job_cmd background_os "echo hi"
         (snd (main background_os (boot with_marker))))
      no_marker
    ∈ trace (snd (cronolize background_os with_marker [None])).
Proof. apply list_elem_of_lookup. exists 7%nat. vm_compute. reflexivity. Qed.

Lemma fired_command_environment_witness :
  Run (job_cmd background_os "echo hi"
         (snd (main background_os (boot with_marker))))
      no_marker
    ∈ trace (snd (cronolize background_os with_marker [None])) ∧
  no_marker = delete cronolizerEnvVar with_marker.
Proof.
  split; [exact sample_firing|].
  exact (fired_command_environment background_os with_marker [None] _ _
           sample_firing).
Defined.

Lemma fired_command_output_witness :
  CmdStdout (job_cmd background_os "echo hi"
               (snd (main background_os (boot with_marker))))
    = Some (Opened "out.log" 1601 438) ∧
  CmdStderr (job_cmd background_os "echo hi"
               (snd (main background_os (boot with_marker))))
    = Some (Opened "out.log" 1601 438).
Proof.
  exact (fired_command_output background_os with_marker [None] _ _
           sample_firing).
Defined.

Lemma fired_command_argv_witness :
  ∃ spec command,
    flag_Args (flags background_os) = [spec; command] ∧
    Path (job_cmd background_os "echo hi"
            (snd (main background_os (boot with_marker)))) = "/bin/sh" ∧
    CmdArgs (job_cmd background_os "echo hi"
               (snd (main background_os (boot with_marker))))
      = ["/bin/sh"; "-c"; command].
Proof.
  exact (fired_command_argv background_os with_marker [None] _ _
           sample_firing).
Defined.
(** ** Announcing and counting the firings *)

Lemma main_no_log w env :
  count isLogPrintf (trace (snd (main w (boot env)))) = 0%nat.
Proof.
  destruct w as [ver a0 a1 [fl fs fsco ft fq ffg fargs] cl ev op ad se st].
  go_run; reflexivity.
Qed.





(** X6. Every firing runs the command exactly once, whether it is
    announced or not.  The job ends the process, with status 1, exactly
    when [cmd.Run()] answers with an error, and returns to cron otherwise;
    either way it leaves the environment, [os.Stdout], [os.Stderr] and the
    logger output of the process as they were. *)
Theorem firing_runs_command_once w command result s :
  fst (job w command result s)
    = (if failed result then Exit 1 else Continue tt) ∧
  count isRun (trace (snd (job w command result s)))
    = S (count isRun (trace s)) ∧
  environ (snd (job w command result s)) = environ s ∧
  os_Stdout (snd (job w command result s)) = os_Stdout s ∧
  os_Stderr (snd (job w command result s)) = os_Stderr s ∧
  log_Output (snd (job w command result s)) = log_Output s.
Proof.
  rewrite job_spec. cbn [fst snd extend trace environ os_Stdout os_Stderr
                         log_Output].
  repeat split; [by destruct result|].
  rewrite count_app. unfold job_events, count.
  destruct (default false (flag_q (flags w))), result; cbn; lia.
Qed.

(** ** When the relaunch itself fails *)

(** X7. When the first phase has passed its start-up checks and then cannot
    set the marker or cannot start its copy, it exits with status 1 having
    written one line [Error: ...] on standard error and nothing else: no
    PID is announced, and no copy was started when it was the marker that
    could not be set. *)
Theorem relaunch_failure_is_fatal w env err :
  startup_error w = None ->
  blocks w env = false ->
  relaunch_error w = Some err ->
  ∃ s, run_main w env = (Exited 1, s) ∧
       List.filter isOutput (trace s)
         = [Println Stderr ("Error: " +:+ Error err)] ∧
       last (trace s) = Some (Println Stderr ("Error: " +:+ Error err)) ∧
       count isStart (trace s) =
         (if isSet (os_Setenv w cronolizerEnvVar envVarValueExpected)
          then 0 else 1)%nat.
Proof.
  destruct w as [ver a0 a1 [fl fs fsco ft fq ffg fargs] cl ev op ad se st].
  unfold relaunch_error, blocks, startup_error, log_error, isCronProcess,
    resolved, openFlag, cleaned, logfile_of.
  go_run; intros; try discriminate; simplify_eq.
  all: eexists; repeat split; reflexivity.
Qed.

Lemma relaunch_failure_is_fatal_witness :
  ∃ s, run_main unspawnable_os no_marker = (Exited 1, s) ∧
       List.filter isOutput (trace s)
         = [Println Stderr ("Error: " +:+ Error ErrFork)] ∧
       last (trace s) = Some (Println Stderr ("Error: " +:+ Error ErrFork)) ∧
       count isStart (trace s) = 1%nat.
Proof.
  apply (relaunch_failure_is_fatal unspawnable_os no_marker ErrFork);
    vm_compute; reflexivity.
Defined.

(** ** The foreground option *)

Lemma main_foreground w env :
  default false (flag_fg (flags w)) = true ->
  count isFileIO (trace (snd (main w (boot env)))) = 0%nat ∧
  count isSetenv (trace (snd (main w (boot env)))) = 0%nat ∧
  count isStart (trace (snd (main w (boot env)))) = 0%nat ∧
  os_Stdout (snd (main w (boot env))) = Stdout ∧
  os_Stderr (snd (main w (boot env))) = Stderr ∧
  log_Output (snd (main w (boot env))) = Stderr.
Proof.
  destruct w as [ver a0 a1 [fl fs fsco ft fq ffg fargs] cl ev op ad se st].
  cbn [flags flag_fg]. destruct ffg as [[|]|]; try discriminate. intros _.
  go_run; repeat split; reflexivity.
Qed.

(** X8. With the foreground option the process never resolves, opens or
    closes any file, never sets the marker, never starts a copy of itself,
    and its standard output, standard error and logger output stay the
    descriptors it was started with, through every firing, even when it
    was started with the marker set. *)
Theorem foreground_touches_nothing w env results :
  default false (flag_fg (flags w)) = true ->
  count isFileIO (trace (snd (cronolize w env results))) = 0%nat ∧
  count isSetenv (trace (snd (cronolize w env results))) = 0%nat ∧
  count isStart (trace (snd (cronolize w env results))) = 0%nat ∧
  os_Stdout (snd (cronolize w env results)) = Stdout ∧
  os_Stderr (snd (cronolize w env results)) = Stderr ∧
  log_Output (snd (cronolize w env results)) = Stderr.
Proof.
  intros Hfg.
  destruct (main_foreground w env Hfg) as (Hio & Hset & Hstart & Ho & He & Hl).
  rewrite cronolize_unfold.
  destruct (main w (boot env)) as [[a|code|] s] eqn:Hm; cbn [snd] in *;
    [done..|].
  set (command := default EmptyString (flag_Args (flags w) !! 1%nat)).
  pose proof (fire_events_only w command results s) as Hall.
  destruct (existsb failed results);
    cbn [snd extend trace os_Stdout os_Stderr log_Output];
    rewrite !count_app, Hio, Hset, Hstart;
    rewrite (job_event_count w command s _ isFileIO
               ltac:(intros e' He'; by destruct e') Hall),
            (job_event_count w command s _ isSetenv
               ltac:(intros e' He'; by destruct e') Hall),
            (job_event_count w command s _ isStart
               ltac:(intros e' He'; by destruct e') Hall);
    done.
Qed.

Lemma foreground_touches_nothing_witness :
  default false (flag_fg (flags foreground_os)) = true ∧
  count isFileIO (trace (snd (cronolize foreground_os with_marker
                                [None; Some ErrExit3]))) = 0%nat ∧
  os_Stderr (snd (cronolize foreground_os with_marker [None; Some ErrExit3]))
    = Stderr.
Proof.
  split; [reflexivity|].
  destruct (foreground_touches_nothing foreground_os with_marker
              [None; Some ErrExit3]) as (Hio & _ & _ & _ & He & _);
    [reflexivity|].
  split; [exact Hio | exact He].
Defined.

(** ** The log file and a malformed expression *)

(** X9. Without the foreground option the first phase handles the log file
    before it hands the expression to cron: when the expression is then
    rejected, the file has already been resolved, opened with the flags of
    the command line (created if absent, truncated with the truncate
    option) and closed; the process reports the parse error on standard
    error and exits with status 1. *)
Theorem parse_error_after_log_file w env spec command err :
  flag_Args (flags w) = [spec; command] ->
  default false (flag_fg (flags w)) = false ->
  isSet (flag_log (flags w)) && isSet (flag_fg (flags w)) = false ->
  isCronProcess env = false ->
  resolves w = true ->
  os_OpenFile w (resolved w) (openFlag w) perm0666 = None ->
  cron_AddFunc w spec = Some err ->
  ∃ s, run_main w env = (Exited 1, s) ∧
       [EvalSymlinks (cleaned w);
        OpenFile (resolved w) (openFlag w) perm0666;
        Close (logfileFD w);
        AddFunc spec;
        Println Stderr ("Error: " +:+ Error err)] `suffix_of` trace s.
Proof.
  destruct w as [ver a0 a1 [fl fs fsco ft fq ffg fargs] cl ev op ad se st].
  unfold logfileFD, isCronProcess, resolves, resolved, openFlag, cleaned,
    logfile_of.
  cbn [flags flag_Args flag_fg flag_log flag_q flag_truncate
       filepath_Clean filepath_EvalSymlinks os_OpenFile cron_AddFunc].
  intros -> Hfg Hboth Hcron Hres Hopen Hparse.
  revert Hfg Hboth Hcron Hres Hopen.
  go_unfold. rewrite Hparse.
  go_run; intros; try discriminate; try congruence.
  all: eexists; split; [reflexivity|]; cbn [trace]; find_suffix.
Qed.

Lemma parse_error_after_log_file_witness :
  ∃ s, run_main malformed_os no_marker = (Exited 1, s) ∧
       [EvalSymlinks "out.log";
        OpenFile "out.log" 1089 perm0666;
        Close (Opened "out.log" 1089 perm0666);
        AddFunc "every minute";
        Println Stderr ("Error: " +:+ Error ErrParse)] `suffix_of` trace s.
Proof.
  apply (parse_error_after_log_file malformed_os no_marker "every minute"
           "echo hi" ErrParse); vm_compute; reflexivity.
Defined.

(** ** A marker with another value *)

(** X10. A marker variable whose value is not the expected one is unset and
    otherwise ignored: the process ends the same way, with the same
    environment and the same streams, and does the same things in the same
    order as it would have done without the variable, apart from unsetting
    it. *)
Theorem stale_marker_is_ignored w env :
  isCronProcess env = false ->
  fst (run_main w env) = fst (run_main w (delete cronolizerEnvVar env)) ∧
  environ (snd (run_main w env))
    = environ (snd (run_main w (delete cronolizerEnvVar env))) ∧
  os_Stdout (snd (run_main w env))
    = os_Stdout (snd (run_main w (delete cronolizerEnvVar env))) ∧
  os_Stderr (snd (run_main w env))
    = os_Stderr (snd (run_main w (delete cronolizerEnvVar env))) ∧
  List.filter (fun e => negb (isUnsetenv e)) (trace (snd (run_main w env)))
    = trace (snd (run_main w (delete cronolizerEnvVar env))).
Proof.
  destruct w as [ver a0 a1 [fl fs fsco ft fq ffg fargs] cl ev op ad se st].
  unfold isCronProcess.
  go_unfold. rewrite !lookup_delete_eq.
  destruct (env !! cronolizerEnvVar) as [stage|] eqn:Henv.
  - intros Hstage. rewrite Hstage.
    go_run; repeat split; reflexivity.
  - intros _. rewrite (delete_id _ _ Henv).
    go_run; repeat split; reflexivity.
Qed.

Lemma stale_marker_is_ignored_witness :
  isCronProcess stale_marker = false ∧
  fst (run_main background_os stale_marker) = Exited 0 ∧
  fst (run_main background_os (delete cronolizerEnvVar stale_marker))
    = Exited 0.
Proof.
  split; [vm_compute; reflexivity|].
  destruct (stale_marker_is_ignored background_os stale_marker) as (Ho & _);
    [vm_compute; reflexivity|].
  split; [vm_compute; reflexivity|].
  rewrite <- Ho. vm_compute; reflexivity.
Defined.

(** ** A wrong number of positional arguments *)

(** X11. When [flag.Parse()] returns and leaves any number of positional
    arguments other than two, the whole run is: look the marker up, unset
    it if it is there, print the welcome line, the syntax line, the flag
    usage and the help text on standard error, exit with status 1.
    Nothing is resolved, opened, parsed or started, whatever values the
    options have. *)
Theorem wrong_argument_count w env :
  length (flag_Args (flags w)) ≠ 2%nat ->
  run_program w Returned env =
    (Exited 1,
     mkProc (delete cronolizerEnvVar env) Stdout Stderr Stderr
       (LookupEnv cronolizerEnvVar
        :: (if isSet (env !! cronolizerEnvVar)
            then [Unsetenv cronolizerEnvVar] else [])
        ++ diagnostic w UsageCount Stderr)%list).
Proof.
  change (run_program w Returned env) with (run_main w env).
  destruct w as [ver a0 a1 [fl fs fsco ft fq ffg fargs] cl ev op ad se st].
  unfold diagnostic. cbn [flags flag_Args version os_Args0].
  destruct fargs as [|x [|y [|z rest]]]; cbn [length]; intros Hlen;
    try done; clear Hlen.
  all: destruct (env !! cronolizerEnvVar) as [stage|] eqn:Henv;
    go_unfold; rewrite Henv; go_step;
    rewrite ?(delete_id _ _ Henv); reflexivity.
Qed.

Lemma wrong_argument_count_witness :
  length (flag_Args (flags short_os)) ≠ 2%nat ∧
  fst (run_program short_os Returned with_marker) = Exited 1 ∧
  trace (snd (run_program short_os Returned with_marker)) !! 1%nat
    = Some (Unsetenv cronolizerEnvVar) ∧
  length (trace (snd (run_program short_os Returned with_marker))) = 8%nat.
Proof.
  assert (Hlen : length (flag_Args (flags short_os)) ≠ 2%nat)
    by (vm_compute; discriminate).
  split; [exact Hlen|].
  rewrite (wrong_argument_count short_os with_marker Hlen).
  repeat split; vm_compute; reflexivity.
Defined.

(** ** Where a running scheduler writes *)

Lemma main_blocking_silent w env :
  match main w (boot env) with
  | (Forever, s) => count isOutput (trace s) = 0%nat
  | _ => True
  end.
Proof.
  destruct w as [ver a0 a1 [fl fs fsco ft fq ffg fargs] cl ev op ad se st].
  go_run; try exact I; reflexivity.
Qed.

Lemma fire_events_targets w command results s e f :
  e ∈ fire_events w command results s ->
  output_target e = Some f ->
  f = log_Output s ∨ f = os_Stderr s.
Proof.
  induction results as [|[err|] rest IH]; cbn [fire_events].
  - by intros ?%elem_of_nil.
  - unfold job_events. destruct (default false (flag_q (flags w))); cbn [app];
      rewrite ?elem_of_cons, elem_of_nil; intros H Ht;
      destruct_or?; subst; cbn in Ht; simplify_eq; auto.
  - intros [H|H]%elem_of_app Ht; [|by apply IH].
    revert H. unfold job_events.
    destruct (default false (flag_q (flags w))); cbn [app];
      rewrite ?elem_of_cons, elem_of_nil; intros H;
      destruct_or?; subst; cbn in Ht; simplify_eq; auto.
Qed.

(** X12. A scheduler that has reached its blocking phase writes to one
    place only, from start to end: everything it has printed or logged by
    itself (the announcements of the firings, the error of a failed
    firing) went to the log file in the relaunched background instance and
    to standard error in foreground mode, never to standard output. *)
Theorem scheduler_writes_to_one_stream w env results e f :
  fst (run_main w env) = Blocking ->
  e ∈ trace (snd (cronolize w env results)) ->
  output_target e = Some f ->
  f = scheduler_stream w env Stderr.
Proof.
  unfold run_main.
  destruct (main w (boot env)) as [[a|code|] s] eqn:Hm; cbn [fst outcome];
    try discriminate.
  intros _ Hin Ht.
  destruct (cronolize_blocking _ _ _ Hm) as (spec & command & _ & Hlife).
  rewrite Hlife in Hin.
  assert (Hin' : e ∈ (trace s ++ fire_events w command results s)%list)
    by (by destruct (existsb failed results)).
  pose proof (main_blocking_silent w env) as Hsilent. rewrite Hm in Hsilent.
  pose proof (main_blocking_streams w env) as Hs. rewrite Hm in Hs.
  destruct Hs as (_ & _ & Herr & Hlog & _).
  apply elem_of_app in Hin' as [Hin'|Hin'].
  - pose proof (count_0_elem _ _ _ Hsilent Hin') as Hno.
    by destruct e.
  - destruct (fire_events_targets _ _ _ _ _ _ Hin' Ht) as [->| ->]; congruence.
Qed.

Lemma scheduler_writes_to_one_stream_witness :
  fst (run_main background_os with_marker) = Blocking ∧
  ∀ e f,
    e ∈ trace (snd (cronolize background_os with_marker
                      [None; Some ErrExit3])) ->
    output_target e = Some f ->
    f = Opened "out.log" 1601 438.
Proof.
  assert (Hb : fst (run_main background_os with_marker) = Blocking)
    by (vm_compute; reflexivity).
  split; [exact Hb|].
  intros e f Hin Ht.
  exact (scheduler_writes_to_one_stream background_os with_marker
           [None; Some ErrExit3] e f Hb Hin Ht).
Defined.
